(** * Shallow embedding of the client-side logic of well-fed-wiz

    The weight journey (src/components/WeightJourneyGraph.tsx), the
    achievement badges (AchievementBadges.tsx), the appointment list
    (src/components/AppointmentsList.tsx), the meal-plan assignment
    (src/components/AssignMealPlan.tsx) and the declarative parts of the
    Supabase schema (CHECK constraints and row-level-security policies).

    Numbers of the TypeScript code are modelled as rationals [Q]; instants of
    a JS [Date] as milliseconds since the epoch in [Z]; a [recorded_date]
    column ("yyyy-MM-dd") as the day number [d] (days since 1970-01-01), which
    [new Date(s)] parses to UTC midnight [d * DAY_MS].  The local time zone
    of the browser is a [TimeZone]: its UTC offsets and their transitions
    (daylight saving time included), as the host's time zone data give them. *)

From Stdlib Require Import ZArith QArith Qabs Qround Qminmax List String Bool Lia.
From Stdlib Require Import Sorted Permutation Lqa.
Import ListNotations.

Open Scope Z_scope.

(** ** JavaScript dates *)

Definition DAY_MS : Z := 1000 * 60 * 60 * 24.

(** [new Date("yyyy-MM-dd")]: UTC midnight of the day. *)
Definition Date_parse (d : Z) : Z := d * DAY_MS.

(** A time zone: the UTC offset (ms) in force before the first transition,
    then the transitions [(instant, offset from that instant on)], in
    increasing order of their UTC instants. *)
Record TimeZone := mkTimeZone {
  tz_offset0 : Z;
  tz_transitions : list (Z * Z)
}.

Fixpoint offset_scan (o : Z) (trs : list (Z * Z)) (t : Z) : Z :=
  match trs with
  | [] => o
  | (T, o') :: rest => if T <=? t then offset_scan o' rest t else o
  end.

(** LocalTZA(t, true): the offset in force at the UTC instant [t]. *)
Definition offsetAt (tz : TimeZone) (t : Z) : Z :=
  offset_scan (tz_offset0 tz) (tz_transitions tz) t.

(** LocalTime(t) = t + LocalTZA(t, true). *)
Definition LocalTime (tz : TimeZone) (t : Z) : Z := t + offsetAt tz t.

(** The instant of a local wall-clock time [l], scanning the intervals
    between transitions in order ([o] is the offset of the current
    interval, which ends at the first transition of [trs]).  A local time
    that occurs twice (the clocks go back) gets its earlier instant; a local
    time skipped by the clocks going forward is read with the offset in
    force before the transition. *)
Fixpoint utc_scan (o : Z) (trs : list (Z * Z)) (l : Z) : Z :=
  match trs with
  | [] => l - o
  | (T, o') :: rest =>
      if l - o <? T then l - o
      else if l - o' <? T then l - o
      else utc_scan o' rest l
  end.

(** UTC(t) of ECMA-262 for a local time value [t]. *)
Definition UTC (tz : TimeZone) (l : Z) : Z :=
  utc_scan (tz_offset0 tz) (tz_transitions tz) l.

(** A zone without transitions, e.g. UTC itself. *)
Definition fixed_zone (o : Z) : TimeZone := mkTimeZone o [].

Definition utc_zone : TimeZone := fixed_zone 0.

(** [t.setHours(0, 0, 0, 0)]: [UTC(MakeDate(Day(LocalTime(t)), 0))], the
    instant of the local midnight of the day of [t] (TimeClip is left out:
    it is applied to the clock and to parsed [yyyy-MM-dd] record dates, all
    within 8.64e15 ms of the epoch). *)
Definition setHours0 (tz : TimeZone) (t : Z) : Z :=
  UTC tz ((LocalTime tz t / DAY_MS) * DAY_MS).

(** A [Date] object's time value: a valid instant or NaN ("Invalid Date"). *)
Inductive DateValue :=
| InvalidDate
| DateAt (t : Z).

(** TimeClip: beyond 8.64e15 ms from the epoch the date is invalid. *)
Definition TimeClip (t : Z) : DateValue :=
  if Z.abs t <=? 8640000000000000 then DateAt t else InvalidDate.

(** [a < b] on numbers. *)
Definition Qlt_bool (a b : Q) : bool := negb (Qle_bool b a).

(** JS truthiness of a (non-NaN) number. *)
Definition js_truthy (q : Q) : bool := negb (Qeq_bool q 0).

(** [x || undefined] as written by the caller for optional numeric props. *)
Definition or_undefined (x : option Q) : option Q :=
  match x with
  | Some q => if js_truthy q then Some q else None
  | None => None
  end.

(** A row of [weight_history] as selected by the components. *)
Record WeightRecord := mkWeightRecord {
  recorded_date : Z;
  weight_kg : Q
}.

(** [weightHistory[0].weight_kg] and [weightHistory[weightHistory.length - 1].weight_kg];
    the components only read them for a non-empty history. *)
Definition firstWeightOf (h : list WeightRecord) : Q :=
  match h with r :: _ => weight_kg r | [] => 0%Q end.

Definition lastRecordOf (h : list WeightRecord) : option WeightRecord :=
  match rev h with r :: _ => Some r | [] => None end.

Definition lastWeightOf (h : list WeightRecord) : Q :=
  match lastRecordOf h with Some r => weight_kg r | None => 0%Q end.

Definition firstDateOf (h : list WeightRecord) : Z :=
  match h with r :: _ => recorded_date r | [] => 0 end.

Definition lastDateOf (h : list WeightRecord) : Z :=
  match lastRecordOf h with Some r => recorded_date r | None => 0 end.

(** ** Divisions performed, recorded by a small writer monad

    Each division [a / b] of the source is [qdiv a b], which records its
    denominator, so that a statement can speak about every denominator the
    computation used. *)
Module Divs.
Definition M (A : Type) : Type := (A * list Q)%type.
Definition ret {A} (a : A) : M A := (a, []).
Definition bind {A B} (m : M A) (k : A -> M B) : M B :=
  let (a, l) := m in let (b, l') := k a in (b, l ++ l').
Definition qdiv (a b : Q) : M Q := ((a / b)%Q, [b]).
End Divs.

Notation "x <- m ;; k" := (Divs.bind m (fun x => k))
  (at level 61, m at next level, right associativity).

(** ** WeightJourneyGraph: [calculateTrendAnalysis] *)

Record TrendAnalysis := mkTrendAnalysis {
  avgWeeklyChange : Q;
  weeksToTarget : option Q;
  projectedDate : option DateValue;
  isOnTrack : option bool
}.

Section Trend.
(** The browser's time zone, the component props and the clock:
    [targetWeight] and [new Date()]. *)
Variable tz : TimeZone.
Variable targetWeight : option Q.
Variable now : Z.

(** [projectionDate.setDate(projectionDate.getDate() + x)] on the date [t],
    for the non-negative [x = weeksToTarget * 7] used here.  setDate computes
    [TimeClip(UTC(MakeDate(MakeDay(y, m, ToIntegerOrInfinity(getDate() + x)),
    TimeWithinDay(LocalTime(t)))))]; as [getDate()] is a positive integer,
    the day becomes [Day(LocalTime(t)) + floor x], at the same local time of
    day. *)
Definition addDays (t : Z) (x : Q) : DateValue :=
  TimeClip (UTC tz (LocalTime tz t + Qfloor x * DAY_MS)).

Definition calculateTrendAnalysis (weightHistory : list WeightRecord)
  : Divs.M (option TrendAnalysis) :=
  let currentWeight := lastWeightOf weightHistory in
  let startWeight := firstWeightOf weightHistory in
  let weightChange := (currentWeight - startWeight)%Q in
  let isLosing := Qlt_bool weightChange 0 in
  if (List.length weightHistory <? 2)%nat then Divs.ret None else
  let firstDate := Date_parse (firstDateOf weightHistory) in
  let lastDate := Date_parse (lastDateOf weightHistory) in
  span <- Divs.qdiv (inject_Z (lastDate - firstDate)) (inject_Z DAY_MS) ;;
  let daysDiff := Qmax 1 span in
  weeksDiff <- Divs.qdiv daysDiff 7 ;;
  avg <- (if Qlt_bool 0 weeksDiff then Divs.qdiv weightChange weeksDiff
          else Divs.ret 0%Q) ;;
  proj <- (match targetWeight with
           | Some t =>
               if js_truthy t && negb (Qeq_bool avg 0) then
                 let remainingWeight := (currentWeight - t)%Q in
                 r <- Divs.qdiv remainingWeight avg ;;
                 let w := Qabs r in
                 Divs.ret (Some w, Some (addDays now (w * 7)%Q))
               else Divs.ret (None, None)
           | None => Divs.ret (None, None)
           end) ;;
  Divs.ret (Some {|
    avgWeeklyChange := avg;
    weeksToTarget := fst proj;
    projectedDate := snd proj;
    isOnTrack :=
      match targetWeight with
      | Some t =>
          if js_truthy t then
            Some ((isLosing && Qlt_bool t currentWeight)
                  || (negb isLosing && Qlt_bool currentWeight t))
          else None
      | None => None
      end |}).
End Trend.

(** ** AchievementBadges: [calculateStreak] and [calculateAchievements] *)

(** Insertion of [r] into a list already sorted newest first, after the
    records of the same instant (the comparator [b - a] is [0] on them and
    [Array.prototype.sort] is stable). *)
Fixpoint insertByDateDesc (r : WeightRecord) (l : list WeightRecord)
  : list WeightRecord :=
  match l with
  | [] => [r]
  | x :: xs =>
      if Date_parse (recorded_date r) <=? Date_parse (recorded_date x)
      then x :: insertByDateDesc r xs
      else r :: x :: xs
  end.

(** [[...weightHistory].sort((a, b) => new Date(b.recorded_date).getTime()
    - new Date(a.recorded_date).getTime())]. *)
Definition sortByDateDesc (h : list WeightRecord) : list WeightRecord :=
  fold_left (fun acc r => insertByDateDesc r acc) h [].

(** The [for (const record of sortedHistory)] loop of [calculateStreak]. *)
Fixpoint streakLoop (tz : TimeZone) (sorted : list WeightRecord) (streak currentDate : Z)
  : Z :=
  match sorted with
  | [] => streak
  | record :: rest =>
      let recordDate := setHours0 tz (Date_parse (recorded_date record)) in
      let currentDate := setHours0 tz currentDate in
      let daysDiff := (currentDate - recordDate) / DAY_MS in
      if daysDiff =? streak
      then streakLoop tz rest (streak + 1) recordDate
      else streak
  end.

(** [calculateStreak]: [now] is [new Date()], [tz] the browser's zone. *)
Definition calculateStreak (tz : TimeZone) (now : Z) (weightHistory : list WeightRecord) : Z :=
  streakLoop tz (sortByDateDesc weightHistory) 0 now.

Inductive Category := milestone | streak_cat | goal.

Record Achievement := mkAchievement {
  ach_id : string;
  unlocked : bool;
  category : Category
}.

(** [calculateAchievements] (titles, icons, progress and rarity omitted:
    they do not influence [unlocked]). *)
Definition calculateAchievements (tz : TimeZone) (now : Z) (weightHistory : list WeightRecord)
    (startWeight targetWeight : option Q) : list Achievement :=
  match weightHistory with
  | [] => []
  | _ =>
    let currentWeight := lastWeightOf weightHistory in
    let firstWeight :=
      match startWeight with
      | Some s => if js_truthy s then s else firstWeightOf weightHistory
      | None => firstWeightOf weightHistory
      end in
    let totalChange := Qabs (currentWeight - firstWeight) in
    let isLosing := Qlt_bool currentWeight firstWeight in
    let streak := calculateStreak tz now weightHistory in
    let totalLogs := Z.of_nat (List.length weightHistory) in
    [ mkAchievement "first-log"%string (1 <=? totalLogs) milestone;
      mkAchievement "1kg-milestone"%string (Qle_bool 1 totalChange) milestone;
      mkAchievement "5kg-milestone"%string (Qle_bool 5 totalChange) milestone;
      mkAchievement "10kg-milestone"%string (Qle_bool 10 totalChange) milestone;
      mkAchievement "15kg-milestone"%string (Qle_bool 15 totalChange) milestone ]
    ++ match targetWeight with
       | Some t =>
           if js_truthy t then
             [mkAchievement "target-reached"%string
                (if isLosing then Qle_bool currentWeight t
                 else Qle_bool t currentWeight) goal]
           else []
       | None => []
       end
    ++ match targetWeight, startWeight with
       | Some t, Some s =>
           if js_truthy t && js_truthy s then
             [mkAchievement "halfway-there"%string
                (Qle_bool (Qabs (t - s) * (1 # 2)) (Qabs (currentWeight - s))) goal]
           else []
       | _, _ => []
       end
    ++ [ mkAchievement "3-day-streak"%string (3 <=? streak) streak_cat;
         mkAchievement "7-day-streak"%string (7 <=? streak) streak_cat;
         mkAchievement "30-day-streak"%string (30 <=? streak) streak_cat;
         mkAchievement "100-day-streak"%string (100 <=? streak) streak_cat;
         mkAchievement "10-logs"%string (10 <=? totalLogs) milestone;
         mkAchievement "50-logs"%string (50 <=? totalLogs) milestone ]
  end.

(** [achievements.find(a => a.id === id)?.unlocked]. *)
Fixpoint unlockedOf (id : string) (l : list Achievement) : option bool :=
  match l with
  | [] => None
  | a :: rest => if String.eqb (ach_id a) id then Some (unlocked a) else unlockedOf id rest
  end.

(** ** The database: tables with CHECK constraints under row-level security

    A table is a list of rows.  A statement either succeeds with the new
    contents or fails as a whole (PostgreSQL aborts the statement when one
    row violates a CHECK constraint or a policy's check expression). *)

Inductive DbResult (A : Type) : Type :=
| DbOk (a : A)
| DbError (message : string).
Arguments DbOk {A} a.
Arguments DbError {A} message.

Section Table.
Variable Row : Type.
(** The CHECK constraints of the table. *)
Variable row_check : Row -> bool.

(** [INSERT]: every new row must pass the CHECK constraints and the
    insert policies' [WITH CHECK]. *)
Definition tbl_insert (with_check : Row -> bool) (rows : list Row) (tbl : list Row)
  : DbResult (list Row) :=
  if forallb (fun r => row_check r && with_check r) rows
  then DbOk (tbl ++ rows)
  else DbError "new row violates check constraint or row-level security policy".

(** [UPDATE ... WHERE target]: the rows passing the [USING] expressions are
    rewritten by [f] (the SET list followed by the BEFORE UPDATE triggers);
    every rewritten row must pass the CHECK constraints and the policies'
    check expression. *)
Fixpoint tbl_update (pol_using with_check target : Row -> bool) (f : Row -> Row)
    (tbl : list Row) : DbResult (list Row) :=
  match tbl with
  | [] => DbOk []
  | r :: rest =>
      match tbl_update pol_using with_check target f rest with
      | DbError e => DbError e
      | DbOk rest' =>
          if target r && pol_using r then
            let r' := f r in
            if row_check r' && with_check r' then DbOk (r' :: rest')
            else DbError "new row violates check constraint or row-level security policy"
          else DbOk (r :: rest')
      end
  end.

(** [DELETE ... WHERE target]: the rows passing [USING] go away. *)
Definition tbl_delete (pol_using target : Row -> bool) (tbl : list Row)
  : DbResult (list Row) :=
  DbOk (filter (fun r => negb (target r && pol_using r)) tbl).

(** Any statement an operation of the application can issue, with any
    policies, filter and SET list. *)
Inductive TableOp : Type :=
| OpInsert (with_check : Row -> bool) (rows : list Row)
| OpUpdate (pol_using with_check target : Row -> bool) (f : Row -> Row)
| OpDelete (pol_using target : Row -> bool).

Definition run_op (op : TableOp) (tbl : list Row) : DbResult (list Row) :=
  match op with
  | OpInsert wc rows => tbl_insert wc rows tbl
  | OpUpdate u wc t f => tbl_update u wc t f tbl
  | OpDelete u t => tbl_delete u t tbl
  end.

(** A sequence of statements; a failed statement leaves the table as it was. *)
Fixpoint run_ops (ops : list TableOp) (tbl : list Row) : list Row :=
  match ops with
  | [] => tbl
  | op :: rest =>
      match run_op op tbl with
      | DbOk tbl' => run_ops rest tbl'
      | DbError _ => run_ops rest tbl
      end
  end.
End Table.

Arguments tbl_insert {Row} row_check with_check rows tbl.
Arguments tbl_update {Row} row_check pol_using with_check target f tbl.
Arguments tbl_delete {Row} pol_using target tbl.
Arguments OpInsert {Row} with_check rows.
Arguments OpUpdate {Row} pol_using with_check target f.
Arguments OpDelete {Row} pol_using target.
Arguments run_op {Row} row_check op tbl.
Arguments run_ops {Row} row_check ops tbl.

(** [has_role(auth.uid(), 'admin')], and the identity of the caller. *)
Record Caller := mkCaller { uid : string; is_admin : bool }.

(** *** [public.appointments] (migration 20251202050706) *)

Record Appointment := mkAppointment {
  appt_id : string;
  client_id : string;
  appointment_date : Z;
  appointment_time : string;
  duration_minutes : Z;
  status : string;
  notes : option string;
  client_notes : option string;
  created_at : Z;
  updated_at : Z
}.

(** [check (status in ('pending', 'confirmed', 'cancelled', 'completed'))]. *)
Definition appointments_check (a : Appointment) : bool :=
  existsb (String.eqb (status a)) ["pending"; "confirmed"; "cancelled"; "completed"]%string.

(** UPDATE policies: "Clients can update own pending or confirmed appointments"
    (migration 20251202063503, replacing the pending-only one) and "Admins can
    update all appointments".  Neither has a WITH CHECK clause, so PostgreSQL
    uses the USING expression for the new row as well. *)
Definition appointments_update_using (c : Caller) (a : Appointment) : bool :=
  (String.eqb (uid c) (client_id a)
   && existsb (String.eqb (status a)) ["pending"; "confirmed"]%string)
  || is_admin c.

(** SELECT policies (an UPDATE with a WHERE clause only sees visible rows). *)
Definition appointments_select_using (c : Caller) (a : Appointment) : bool :=
  String.eqb (uid c) (client_id a) || is_admin c.

(** INSERT policy "Clients can create own appointments". *)
Definition appointments_insert_check (c : Caller) (a : Appointment) : bool :=
  String.eqb (uid c) (client_id a).

(** DELETE policy "Admins can delete all appointments". *)
Definition appointments_delete_using (c : Caller) (_ : Appointment) : bool :=
  is_admin c.

(** Trigger [update_appointments_updated_at]: [new.updated_at = now()]. *)
Definition touch_updated_at (now : Z) (a : Appointment) : Appointment :=
  {| appt_id := appt_id a; client_id := client_id a;
     appointment_date := appointment_date a; appointment_time := appointment_time a;
     duration_minutes := duration_minutes a; status := status a; notes := notes a;
     client_notes := client_notes a; created_at := created_at a; updated_at := now |}.

(** The object passed to [.update({...})]: the columns it sets. *)
Record AppointmentPatch := mkAppointmentPatch {
  set_client_id : option string;
  set_appointment_date : option Z;
  set_appointment_time : option string;
  set_duration_minutes : option Z;
  set_status : option string;
  set_notes : option (option string);
  set_client_notes : option (option string)
}.

Definition upd {A} (o : option A) (x : A) : A :=
  match o with Some y => y | None => x end.

Definition apply_patch (p : AppointmentPatch) (a : Appointment) : Appointment :=
  {| appt_id := appt_id a;
     client_id := upd (set_client_id p) (client_id a);
     appointment_date := upd (set_appointment_date p) (appointment_date a);
     appointment_time := upd (set_appointment_time p) (appointment_time a);
     duration_minutes := upd (set_duration_minutes p) (duration_minutes a);
     status := upd (set_status p) (status a);
     notes := upd (set_notes p) (notes a);
     client_notes := upd (set_client_notes p) (client_notes a);
     created_at := created_at a; updated_at := updated_at a |}.

(** [supabase.from("appointments").update(patch).eq("id", id)] by [c]. *)
Definition appointments_update_by_id (c : Caller) (now : Z) (p : AppointmentPatch)
    (id : string) (tbl : list Appointment) : DbResult (list Appointment) :=
  tbl_update appointments_check
    (fun a => appointments_select_using c a && appointments_update_using c a)
    (appointments_update_using c)
    (fun a => String.eqb (appt_id a) id)
    (fun a => touch_updated_at now (apply_patch p a)) tbl.

(** The requests a signed-in client can send to [appointments] (through the
    UI or directly through the REST API). *)
Inductive ClientRequest :=
| ReqInsert (rows : list Appointment)
| ReqUpdate (target : Appointment -> bool) (p : AppointmentPatch)
| ReqDelete (target : Appointment -> bool).

Definition client_request (c : Caller) (now : Z) (req : ClientRequest)
    (tbl : list Appointment) : DbResult (list Appointment) :=
  match req with
  | ReqInsert rows => tbl_insert appointments_check (appointments_insert_check c) rows tbl
  | ReqUpdate target p =>
      tbl_update appointments_check
        (fun a => appointments_select_using c a && appointments_update_using c a)
        (appointments_update_using c) target
        (fun a => touch_updated_at now (apply_patch p a)) tbl
  | ReqDelete target =>
      tbl_delete (fun a => appointments_select_using c a && appointments_delete_using c a)
        target tbl
  end.

(** AppointmentsList: Reschedule and Cancel are rendered only when
    [appointment.status === "pending" || appointment.status === "confirmed"]. *)
Definition showClientActions (s : string) : bool :=
  String.eqb s "pending" || String.eqb s "confirmed".

(** *** [public.client_meal_plans] (migration 20251202051114) *)

Record ClientMealPlan := mkClientMealPlan {
  cmp_id : string;
  cmp_client_id : string;
  meal_plan_id : string;
  assigned_by : option string;
  start_date : Z;
  end_date : option Z;
  cmp_status : string;
  cmp_notes : option string;
  cmp_created_at : Z;
  cmp_updated_at : Z
}.

(** [check (status in ('active', 'completed', 'cancelled'))]. *)
Definition client_meal_plans_check (m : ClientMealPlan) : bool :=
  existsb (String.eqb (cmp_status m)) ["active"; "completed"; "cancelled"]%string.

(** ** Async handlers: exceptions, notifications and console

    [Exc] is the outcome of an awaited call that may throw; [tryCatch]
    is [try { ... } catch (e) { handler(e) }]. *)

Inductive Exc (A : Type) : Type :=
| Ret (a : A)
| Throw (e : string).
Arguments Ret {A} a.
Arguments Throw {A} e.

Definition exc_bind {A B} (m : Exc A) (k : A -> Exc B) : Exc B :=
  match m with Ret a => k a | Throw e => Throw e end.

Notation "x <-! m ;; k" := (exc_bind m (fun x => k))
  (at level 61, m at next level, right associativity).

Definition tryCatch {A} (m : Exc A) (handler : string -> A) : A :=
  match m with Ret a => a | Throw e => handler e end.

(** A [toast({ title, variant })]. *)
Record Toast := mkToast { toast_title : string; destructive : bool }.

(** What a handler leaves behind: the table, the notifications shown and
    the console lines written. *)
Record Outcome (R : Type) := mkOutcome {
  db : list R;
  toasts : list Toast;
  console : list string
}.
Arguments mkOutcome {R} db toasts console.
Arguments db {R} o.
Arguments toasts {R} o.
Arguments console {R} o.

(** *** AppointmentsList: [handleReschedule] *)

(** The secondary calls of the notification block: the admin role lookup,
    the client profile lookup, [auth.admin.getUserById] and the
    [send-appointment-request-notification] invocation. *)
Record RescheduleCalls := mkRescheduleCalls {
  adminRoleQ : Exc (option string);
  clientProfileQ : Exc (option string);
  getUserById : string -> Exc (option string);
  invokeRequestNotification : Exc unit
}.

Definition rescheduleNotification (calls : RescheduleCalls) (clientId : string)
  : Exc unit :=
  adminRole <-! adminRoleQ calls ;;
  _clientProfile <-! clientProfileQ calls ;;
  match adminRole with
  | Some adminId =>
      adminEmail <-! getUserById calls adminId ;;
      _clientEmail <-! getUserById calls clientId ;;
      match adminEmail with
      | Some _ => invokeRequestNotification calls
      | None => Ret tt
      end
  | None => Ret tt
  end.

(** The object given to [.update({...})] by [handleReschedule]. *)
Definition reschedulePatch (sel : Appointment) (newDate : Z) (newTime : string)
  : AppointmentPatch :=
  let wasConfirmed := String.eqb (status sel) "confirmed" in
  {| set_client_id := None;
     set_appointment_date := Some newDate;
     set_appointment_time := Some newTime;
     set_duration_minutes := None;
     set_status := Some (if wasConfirmed then "pending"%string else status sel);
     set_notes := None;
     set_client_notes := None |}.

Definition handleReschedule (c : Caller) (now : Z) (clientId : string)
    (selectedAppointment : option Appointment)
    (newDate : option Z) (newTime : option string) (calls : RescheduleCalls)
    (tbl : list Appointment) : Outcome Appointment :=
  match newDate, newTime, selectedAppointment with
  | Some d, Some t, Some sel =>
      let wasConfirmed := String.eqb (status sel) "confirmed" in
      match appointments_update_by_id c now (reschedulePatch sel d t) (appt_id sel) tbl with
      | DbError e => mkOutcome tbl [mkToast "Error" true] []
      | DbOk tbl' =>
          let logs :=
            if wasConfirmed then
              tryCatch (exc_bind (rescheduleNotification calls clientId) (fun _ => Ret []))
                (fun e => ["Failed to send email notification:"; e])%string
            else [] in
          (* then [fetchAppointments()] *)
          mkOutcome tbl' [mkToast "Appointment Rescheduled" false] logs
      end
  | _, _, _ => mkOutcome tbl [mkToast "Missing Information" true] []
  end.

(** *** AssignMealPlan: [handleAssign] *)

(** The secondary calls: profile lookup, [auth.admin.getUserById], meal plan
    lookup and the [send-meal-plan-notification] invocation. *)
Record AssignCalls := mkAssignCalls {
  profileQ : Exc (option string);
  authUserQ : Exc (option string);
  mealPlanQ : Exc (option string);
  invokeMealPlanNotification : Exc unit
}.

Definition assignNotification (calls : AssignCalls) : Exc unit :=
  _clientProfile <-! profileQ calls ;;
  authUser <-! authUserQ calls ;;
  mealPlan <-! mealPlanQ calls ;;
  match authUser, mealPlan with
  | Some _, Some _ => invokeMealPlanNotification calls
  | _, _ => Ret tt
  end.

(** "Admins can create assignments": [with check (has_role(auth.uid(), 'admin'))]. *)
Definition client_meal_plans_insert_check (c : Caller) (_ : ClientMealPlan) : bool :=
  is_admin c.

(** The row inserted by [handleAssign]; [id], [status], [end_date] and the
    timestamps take their column defaults. *)
Definition assignRow (c : Caller) (newId selectedClientId mealPlanId : string)
    (startDate : Z) (notes : string) (now : Z) : ClientMealPlan :=
  {| cmp_id := newId; cmp_client_id := selectedClientId; meal_plan_id := mealPlanId;
     assigned_by := Some (uid c); start_date := startDate; end_date := None;
     cmp_status := "active";
     cmp_notes := if String.eqb notes "" then None else Some notes;
     cmp_created_at := now; cmp_updated_at := now |}.

Definition handleAssign (c : Caller) (now : Z) (newId selectedClientId mealPlanId : string)
    (startDate : Z) (notes : string) (calls : AssignCalls) (tbl : list ClientMealPlan)
  : Outcome ClientMealPlan :=
  if String.eqb selectedClientId "" || String.eqb mealPlanId "" then
    mkOutcome tbl [mkToast "Validation Error" true] []
  else
    match tbl_insert client_meal_plans_check (client_meal_plans_insert_check c)
            [assignRow c newId selectedClientId mealPlanId startDate notes now] tbl with
    | DbError e => mkOutcome tbl [mkToast "Error" true] []
    | DbOk tbl' =>
        let logs :=
          tryCatch (exc_bind (assignNotification calls) (fun _ => Ret []))
            (fun e => ["Failed to send email notification:"; e])%string in
        mkOutcome tbl' [mkToast "Success" false] logs
    end.

(** *** Backend requests issued by a handler *)

Inductive BackendRequest :=
| SelectFrom (table : string)
| InsertInto (table : string).

(** *** [public.weight_history] (unnamed migration, part_003) *)

Record WeightHistoryRow := mkWeightHistoryRow {
  wh_id : string;
  user_id : string;
  wh_weight_kg : Q;
  wh_recorded_date : Z;
  wh_notes : option string;
  wh_created_at : Z
}.

(** [NUMERIC(p, s)]: the value is rounded half away from zero to [s]
    decimals and must have fewer than [p - s] integer digits. *)
Definition numeric_round (scale : Z) (q : Q) : Z :=
  let n := Qnum q * 10 ^ scale in
  let d := Zpos (Qden q) in
  Z.sgn n * ((2 * Z.abs n + d) / (2 * d)).

Definition numeric_fits (precision scale : Z) (q : Q) : bool :=
  Z.abs (numeric_round scale q) <? 10 ^ precision.

(** Assignment to a [NUMERIC(p, s)] column: the value stored is the rounded
    one; a value that does not fit raises "numeric field overflow". *)
Definition numeric_coerce (precision scale : Z) (q : Q) : option Q :=
  if numeric_fits precision scale q
  then Some (numeric_round scale q # Z.to_pos (10 ^ scale))
  else None.

(** The declared constraints on a row: [weight_kg NUMERIC(5,2) NOT NULL]
    (NOT NULL and the other columns' types hold by construction). *)
Definition weight_history_check (r : WeightHistoryRow) : bool :=
  numeric_fits 5 2 (wh_weight_kg r).

(** "Users can insert own weight records": [with check (auth.uid() = user_id)]. *)
Definition weight_history_insert_check (c : Caller) (r : WeightHistoryRow) : bool :=
  String.eqb (uid c) (user_id r).

(** [.insert({ user_id, weight_kg, recorded_date })] into [weight_history]:
    [weight_kg] is first assigned to its [NUMERIC(5,2)] column (rounded to
    two decimals, or an overflow error), then the row goes through the
    CHECK constraints and the policy. *)
Definition weight_history_insert (c : Caller) (r : WeightHistoryRow)
    (tbl : list WeightHistoryRow) : DbResult (list WeightHistoryRow) :=
  match numeric_coerce 5 2 (wh_weight_kg r) with
  | None => DbError "numeric field overflow"
  | Some w =>
      tbl_insert weight_history_check (weight_history_insert_check c)
        [mkWeightHistoryRow (wh_id r) (user_id r) w (wh_recorded_date r)
           (wh_notes r) (wh_created_at r)] tbl
  end%string.

(** *** WeightJourneyGraph: [handleAddWeight] *)

(** The value of [parseFloat(newWeight)]. *)
Inductive JsNumber :=
| NaN
| Num (q : Q).

Definition handleAddWeight (c : Caller) (now : Z) (newId : string) (parsed : JsNumber)
    (recordDate : Z) (tbl : list WeightHistoryRow)
  : Outcome WeightHistoryRow * list BackendRequest :=
  let invalid := (mkOutcome tbl [mkToast "Invalid Weight" true] [], []) in
  match parsed with
  | NaN => invalid
  | Num weight =>
      if negb (js_truthy weight) || Qle_bool weight 0 then invalid
      else
        let row := mkWeightHistoryRow newId (uid c) weight recordDate None now in
        match weight_history_insert c row tbl with
        | DbError e =>
            (mkOutcome tbl [mkToast "Error" true] [], [InsertInto "weight_history"])
        | DbOk tbl' =>
            (* then [fetchWeightHistory()] and [onWeightAdded?.()] *)
            (mkOutcome tbl' [mkToast "Weight Recorded!" false] [],
             [InsertInto "weight_history"; SelectFrom "weight_history"])
        end
  end%string.

(** *** Fetching lists: [fetchWeightHistory] and [fetchAppointments] *)

(** The React state a list component keeps, with the notifications and
    console lines it produced. *)
Record ListState (A : Type) := mkListState {
  items : list A;
  loading : bool;
  ui_toasts : list Toast;
  ui_console : list string
}.
Arguments mkListState {A} items loading ui_toasts ui_console.
Arguments items {A}.
Arguments loading {A}.
Arguments ui_toasts {A}.
Arguments ui_console {A}.

(** WeightJourneyGraph [fetchWeightHistory]; [res] is the select's result. *)
Definition fetchWeightHistory (res : DbResult (list WeightRecord))
    (st : ListState WeightRecord) : ListState WeightRecord * list BackendRequest :=
  (match res with
   | DbOk data => mkListState data false (ui_toasts st) (ui_console st)
   | DbError _ =>
       mkListState (items st) false (ui_toasts st ++ [mkToast "Error" true]) (ui_console st)
   end, [SelectFrom "weight_history"]).

(** AppointmentsList [fetchAppointments]. *)
Definition fetchAppointments (res : DbResult (list Appointment))
    (st : ListState Appointment) : ListState Appointment * list BackendRequest :=
  (match res with
   | DbOk data => mkListState data false (ui_toasts st) (ui_console st)
   | DbError e =>
       mkListState (items st) false (ui_toasts st)
         (ui_console st ++ ["Error fetching appointments:"%string; e])
   end, [SelectFrom "appointments"]).

(** *** AppointmentsList: [handleCancel] (the same in both list components) *)

(** [.update({ status: "cancelled" })]. *)
Definition cancelPatch : AppointmentPatch :=
  mkAppointmentPatch None None None None (Some "cancelled"%string) None None.

Definition handleCancel (c : Caller) (now : Z) (id : string) (tbl : list Appointment)
  : Outcome Appointment :=
  match appointments_update_by_id c now cancelPatch id tbl with
  | DbError e => mkOutcome tbl [mkToast "Error" true] []
  | DbOk tbl' =>
      (* then [fetchAppointments()] *)
      mkOutcome tbl' [mkToast "Appointment Cancelled" false] []
  end.

(** *** AchievementBadges: what the card shows *)

(** [showAll ? achievements : achievements.filter(a => a.unlocked).slice(0, 6)]. *)
Definition displayedAchievements (showAll : bool) (achievements : list Achievement)
  : list Achievement :=
  if showAll then achievements else firstn 6 (filter unlocked achievements).

(** [achievements.filter(a => a.unlocked).length]. *)
Definition unlockedCount (achievements : list Achievement) : nat :=
  List.length (filter unlocked achievements).

(** *** [public.user_roles] (migrations 20251202045402 and 20251202050020) *)

Inductive AppRole := RoleAdmin | RoleClient.

Definition AppRole_eqb (a b : AppRole) : bool :=
  match a, b with
  | RoleAdmin, RoleAdmin | RoleClient, RoleClient => true
  | _, _ => false
  end.

Record UserRole := mkUserRole {
  ur_id : string;
  ur_user_id : string;
  ur_role : AppRole
}.

(** [public.has_role(_user_id, _role)]. *)
Definition has_role (tbl : list UserRole) (u : string) (r : AppRole) : bool :=
  existsb (fun x => String.eqb (ur_user_id x) u && AppRole_eqb (ur_role x) r) tbl.

(** "Users can insert own role": [with check (auth.uid() = user_id)]. *)
Definition user_roles_insert_check (c : Caller) (x : UserRole) : bool :=
  String.eqb (uid c) (ur_user_id x).

(** [INSERT INTO user_roles]: row by row, each must not repeat an existing
    [(user_id, role)] ([unique (user_id, role)]) and must pass the policy;
    any failure aborts the statement. *)
Fixpoint user_roles_insert (c : Caller) (rows : list UserRole) (tbl : list UserRole)
  : DbResult (list UserRole) :=
  match rows with
  | [] => DbOk tbl
  | x :: rest =>
      if has_role tbl (ur_user_id x) (ur_role x)
      then DbError "duplicate key value violates unique constraint"
      else if user_roles_insert_check c x
      then user_roles_insert c rest (tbl ++ [x])
      else DbError "new row violates row-level security policy"
  end.

(** The order [sortByDateDesc] aims at: [b] is not newer than [a]. *)
Definition newest_first (a b : WeightRecord) : Prop :=
  Date_parse (recorded_date b) <= Date_parse (recorded_date a).

(** ** Sample inputs *)

Definition h_demo : list WeightRecord :=
  [mkWeightRecord 0 80; mkWeightRecord 3 (799 # 10); mkWeightRecord 7 79].

Definition today_demo : Z := 20741%Z.  (* 2026-10-15 *)

(** America/New_York in 2026: EST (UTC-5), EDT (UTC-4) from 2026-03-08
    07:00 UTC, EST again from 2026-11-01 06:00 UTC. *)
Definition new_york_2026 : TimeZone :=
  mkTimeZone (-18000000)
    [(20520 * DAY_MS + 25200000, -14400000); (20758 * DAY_MS + 21600000, -18000000)].

(** Europe/Berlin in 2026: CET (UTC+1), CEST (UTC+2) from 2026-03-29
    01:00 UTC, CET again from 2026-10-25 01:00 UTC. *)
Definition berlin_2026 : TimeZone :=
  mkTimeZone 3600000
    [(20541 * DAY_MS + 3600000, 7200000); (20751 * DAY_MS + 3600000, 3600000)].

Definition appt_demo (id st : string) : Appointment :=
  mkAppointment id "client-1" 20745 "10:00" 60 st None None 0 0.

(** * Theorems *)

Open Scope Q_scope.


Example trend_demo :
  match fst (calculateTrendAnalysis utc_zone (Some (157 # 2)) 0 h_demo) with
  | Some ta =>
      Qeq_bool (avgWeeklyChange ta) (-1) &&
      match weeksToTarget ta with Some w => Qeq_bool w (1 # 2) | None => false end &&
      match projectedDate ta with Some (DateAt p) => Z.eqb p (3 * DAY_MS) | _ => false end
  | None => false
  end = true.
Proof. vm_compute. reflexivity. Qed.

Lemma span_days (a b : Z) :
  inject_Z (Date_parse a - Date_parse b) / inject_Z DAY_MS == inject_Z (a - b).
Proof.
  unfold Date_parse. rewrite <- Z.mul_sub_distr_r, inject_Z_mult.
  field. unfold Qeq; simpl; discriminate.
Qed.

Lemma weeks_pos (s : Q) : 0 < Qmax 1 s / 7.
Proof.
  apply Qlt_shift_div_l; [reflexivity|].
  apply Qlt_le_trans with 1; [reflexivity|]. apply Q.le_max_l.
Qed.

Lemma Qlt_bool_true (a b : Q) : a < b -> Qlt_bool a b = true.
Proof.
  intro H. unfold Qlt_bool. apply negb_true_iff.
  destruct (Qle_bool b a) eqn:E; [|reflexivity].
  apply Qle_bool_iff in E. exfalso. apply (Qlt_not_le _ _ H E).
Qed.

(** C1 (amended): for a history of at least two records the average weekly
    change is [(last - first) / (max(1, days between first and last) / 7)];
    with a (non-zero) target weight and a non-zero average, [weeksToTarget]
    is [|current - target| / |avgWeeklyChange|] and the projected date is
    the instant of today's local date advanced by [floor(weeksToTarget * 7)]
    calendar days at the same local time of day (so across a change of the
    UTC offset it is not a whole number of 24-hour days away), or an Invalid
    Date when that instant lies more than 8.64e15 ms from the epoch; with
    fewer than two records there is no projection. *)
Theorem trend_projection_linear (tz : TimeZone) (h : list WeightRecord)
    (targetWeight : option Q) (now : Z) :
  ((List.length h < 2)%nat ->
     fst (calculateTrendAnalysis tz targetWeight now h) = None) /\
  ((2 <= List.length h)%nat ->
   exists ta,
     fst (calculateTrendAnalysis tz targetWeight now h) = Some ta /\
     avgWeeklyChange ta ==
       (lastWeightOf h - firstWeightOf h)
       / (Qmax 1 (inject_Z (lastDateOf h - firstDateOf h)) / 7) /\
     (forall t, targetWeight = Some t -> ~ t == 0 -> ~ avgWeeklyChange ta == 0 ->
        exists w,
          weeksToTarget ta = Some w /\
          w == Qabs (lastWeightOf h - t) / Qabs (avgWeeklyChange ta) /\
          projectedDate ta =
            Some (TimeClip (UTC tz (now + offsetAt tz now + Qfloor (w * 7) * DAY_MS)%Z)))).
Proof.
  split; intro Hlen.
  - unfold calculateTrendAnalysis.
    apply Nat.ltb_lt in Hlen. rewrite Hlen. reflexivity.
  - unfold calculateTrendAnalysis.
    assert (Hn : (List.length h <? 2)%nat = false) by (apply Nat.ltb_ge; exact Hlen).
    rewrite Hn. cbn [Divs.bind Divs.qdiv Divs.ret fst snd].
    rewrite (Qlt_bool_true _ _ (weeks_pos _)).
    cbn [Divs.bind Divs.qdiv Divs.ret fst snd].
    set (avg := (lastWeightOf h - firstWeightOf h) /
                (Qmax 1 (inject_Z (Date_parse (lastDateOf h) - Date_parse (firstDateOf h))
                         / inject_Z DAY_MS) / 7)).
    assert (Havg : avg == (lastWeightOf h - firstWeightOf h)
                          / (Qmax 1 (inject_Z (lastDateOf h - firstDateOf h)) / 7)).
    { unfold avg. rewrite span_days. reflexivity. }
    destruct targetWeight as [t|].
    + destruct (js_truthy t && negb (Qeq_bool avg 0)) eqn:Eg.
      * cbn [Divs.bind Divs.qdiv Divs.ret fst snd].
        eexists; split; [reflexivity|]. cbn [avgWeeklyChange weeksToTarget projectedDate].
        split; [exact Havg|].
        intros t' Ht' _ _. injection Ht' as <-.
        eexists; split; [reflexivity|]. split; [|reflexivity].
        unfold Qdiv. rewrite Qabs_Qmult, Qabs_Qinv. reflexivity.
      * cbn [Divs.bind Divs.qdiv Divs.ret fst snd].
        eexists; split; [reflexivity|]. cbn [avgWeeklyChange weeksToTarget projectedDate].
        split; [exact Havg|].
        intros t' Ht' Ht0 Ha0. injection Ht' as <-. exfalso.
        apply andb_false_iff in Eg. unfold js_truthy in Eg.
        destruct Eg as [E|E]; apply negb_false_iff, Qeq_bool_iff in E; contradiction.
    + cbn [Divs.bind Divs.qdiv Divs.ret fst snd].
      eexists; split; [reflexivity|]. cbn [avgWeeklyChange].
      split; [exact Havg|]. intros t Ht. discriminate.
Qed.

(** C1 (counterexample): the projected date is not today plus
    [weeksToTarget * 7] days.  (1) Only whole days are added: for records
    80 kg on day 0, 79.9 kg on day 3 and 79 kg on day 7 with target 78.5 kg,
    in UTC, [weeksToTarget] is 0.5 but the projection lies 3 days ahead, not
    3.5 days.  (2) The days are local calendar days: in New York, from
    2026-10-30 12:00 UTC with records 80 kg on 2026-10-23 and 79 kg on
    2026-10-30 and target 76 kg, [weeksToTarget] is 3 and the projection is
    21 days and one hour ahead, as the clocks go back on 2026-11-01.
    (3) For records 80 kg on 1900-01-01 and 80.01 kg today (2026-10-15)
    with target 40 kg the projection is an Invalid Date. *)
Lemma trend_projected_date_whole_days :
  (exists ta w,
    fst (calculateTrendAnalysis utc_zone (Some (157 # 2)) 0%Z h_demo) = Some ta /\
    weeksToTarget ta = Some w /\ w == 1 # 2 /\
    projectedDate ta = Some (DateAt (3 * DAY_MS)) /\
    ~ inject_Z (3 * DAY_MS) == inject_Z 0 + w * 7 * inject_Z DAY_MS) /\
  (exists ta w,
    fst (calculateTrendAnalysis new_york_2026 (Some 76)
           (20756 * DAY_MS + 43200000)%Z
           [mkWeightRecord 20749 80; mkWeightRecord 20756 79]) = Some ta /\
    weeksToTarget ta = Some w /\ w == 3 /\
    projectedDate ta = Some (DateAt (20756 * DAY_MS + 43200000 + 21 * DAY_MS + 3600000))) /\
  (exists ta,
    fst (calculateTrendAnalysis utc_zone (Some 40) (today_demo * DAY_MS)%Z
           [mkWeightRecord (-25567) 80; mkWeightRecord today_demo (8001 # 100)]) = Some ta /\
    projectedDate ta = Some InvalidDate).
Proof.
  split; [|split].
  - exists (mkTrendAnalysis (-604800000 # 604800000) (Some (604800000 # 1209600000))
                            (Some (DateAt (3 * DAY_MS))) (Some true)).
    exists (604800000 # 1209600000).
    split; [vm_compute; reflexivity|].
    split; [reflexivity|]. split; [reflexivity|]. split; [reflexivity|].
    unfold Qeq. vm_compute. discriminate.
  - eexists. eexists.
    split; [reflexivity|]. split; [reflexivity|].
    split; vm_compute; reflexivity.
  - eexists. split; [reflexivity|]. vm_compute. reflexivity.
Qed.

Lemma Qmax_1_nonzero (s : Q) : ~ Qmax 1 s / 7 == 0.
Proof.
  intro E. pose proof (weeks_pos s) as P. rewrite E in P. apply (Qlt_irrefl 0 P).
Qed.

(** C10: [calculateTrendAnalysis] never divides by zero: the day span is
    clamped below at 1 before dividing, so every denominator it uses (the
    milliseconds of a day, 7, the positive [weeksDiff] and, only when it is
    non-zero, [avgWeeklyChange]) is non-zero, for every history (with fewer
    than two records no division happens at all); moreover [weeksDiff] is
    positive, so the [: 0] branch of the average is never taken. *)
Theorem trend_no_division_by_zero (tz : TimeZone) (h : list WeightRecord)
    (targetWeight : option Q) (now : Z) :
  Forall (fun b => ~ b == 0) (snd (calculateTrendAnalysis tz targetWeight now h)) /\
  ((2 <= List.length h)%nat ->
   1 <= Qmax 1 (inject_Z (Date_parse (lastDateOf h) - Date_parse (firstDateOf h))
                / inject_Z DAY_MS) /\
   0 < Qmax 1 (inject_Z (Date_parse (lastDateOf h) - Date_parse (firstDateOf h))
               / inject_Z DAY_MS) / 7).
Proof.
  split; [|intros _; split; [apply Q.le_max_l|apply weeks_pos]].
  unfold calculateTrendAnalysis.
  destruct (List.length h <? 2)%nat; [constructor|].
  cbn [Divs.bind Divs.qdiv Divs.ret fst snd].
  rewrite (Qlt_bool_true _ _ (weeks_pos _)).
  cbn [Divs.bind Divs.qdiv Divs.ret fst snd].
  destruct targetWeight as [t|].
  - destruct (js_truthy t && negb _) eqn:Eg; cbn [Divs.bind Divs.qdiv Divs.ret fst snd app].
    + apply andb_true_iff in Eg as [_ Eg]. apply negb_true_iff in Eg.
      repeat constructor.
      * unfold Qeq; simpl; discriminate.
      * unfold Qeq; simpl; discriminate.
      * apply Qmax_1_nonzero.
      * intro E. apply Qeq_bool_iff in E. rewrite E in Eg. discriminate.
    + repeat constructor.
      * unfold Qeq; simpl; discriminate.
      * unfold Qeq; simpl; discriminate.
      * apply Qmax_1_nonzero.
  - cbn [app]. repeat constructor.
    + unfold Qeq; simpl; discriminate.
    + unfold Qeq; simpl; discriminate.
    + apply Qmax_1_nonzero.
Qed.


Example streak_demo_gap :
  calculateStreak utc_zone (today_demo * DAY_MS + 36000000)%Z
    [mkWeightRecord (today_demo - 2) 80; mkWeightRecord (today_demo - 1) 80;
     mkWeightRecord today_demo 80] = 2%Z.
Proof. vm_compute. reflexivity. Qed.

Example streak_demo_offset :
  calculateStreak (fixed_zone (-18000000)) (today_demo * DAY_MS + 43200000)%Z
    [mkWeightRecord today_demo 80] = 0%Z.
Proof. vm_compute. reflexivity. Qed.

(** Berlin, 2026-03-30 08:00 UTC, one record on 2026-03-29: the local
    midnights are 23 hours apart (the clocks went forward on 2026-03-29),
    [Math.floor] gives 0 and the streak is 1. *)
Example streak_demo_dst :
  calculateStreak berlin_2026 (20542 * DAY_MS + 28800000)%Z
    [mkWeightRecord 20541 80] = 1%Z /\
  (setHours0 berlin_2026 (20542 * DAY_MS + 28800000)
   - setHours0 berlin_2026 (Date_parse 20541) = 23 * 3600000)%Z.
Proof. split; vm_compute; reflexivity. Qed.

Example streak_demo_spread :
  calculateStreak utc_zone (today_demo * DAY_MS + 36000000)%Z
    [mkWeightRecord (today_demo - 3) 80; mkWeightRecord (today_demo - 1) 80;
     mkWeightRecord today_demo 80] = 3%Z.
Proof. vm_compute. reflexivity. Qed.

Lemma js_truthy_nonzero (q : Q) : ~ q == 0 -> js_truthy q = true.
Proof.
  intro H. unfold js_truthy. apply negb_true_iff.
  destruct (Qeq_bool q 0) eqn:E; [|reflexivity].
  apply Qeq_bool_iff in E. contradiction.
Qed.

(** The props built by the caller ([profile.x || undefined]) are never 0,
    which is what the hypotheses of [achievements_threshold_table] ask. *)
Lemma or_undefined_nonzero (x : option Q) (q : Q) :
  or_undefined x = Some q -> ~ q == 0.
Proof.
  destruct x as [q'|]; simpl; [|discriminate].
  unfold js_truthy. destruct (Qeq_bool q' 0) eqn:E; simpl; [discriminate|].
  intros H. injection H as <-. intro Hq. apply Qeq_bool_iff in Hq. congruence.
Qed.

(** C2: for a non-empty history the unlock flags follow the fixed threshold
    table: the 1/5/10/15 kg milestones on [|current - first| >= 1, 5, 10, 15]
    ([first] being [startWeight] when supplied, else the earliest record),
    the 10/50-log badges on the number of records, the 3/7/30/100-day badges
    on the computed streak, and, with a target weight, 'Goal Achieved!' on
    [current <= target] when losing ([current < first]) and
    [current >= target] otherwise.  The optional props are never [0]: the
    only caller passes [x || undefined] (see [or_undefined]). *)
Theorem achievements_threshold_table (tz : TimeZone) (now : Z) (h : list WeightRecord)
    (startWeight targetWeight : option Q)
    (Hne : h <> [])
    (Hs : forall s, startWeight = Some s -> ~ s == 0)
    (Ht : forall t, targetWeight = Some t -> ~ t == 0) :
  let cur := lastWeightOf h in
  let first := match startWeight with Some s => s | None => firstWeightOf h end in
  let streak := calculateStreak tz now h in
  let logs := Z.of_nat (List.length h) in
  let a := calculateAchievements tz now h startWeight targetWeight in
  unlockedOf "1kg-milestone" a = Some (Qle_bool 1 (Qabs (cur - first))) /\
  unlockedOf "5kg-milestone" a = Some (Qle_bool 5 (Qabs (cur - first))) /\
  unlockedOf "10kg-milestone" a = Some (Qle_bool 10 (Qabs (cur - first))) /\
  unlockedOf "15kg-milestone" a = Some (Qle_bool 15 (Qabs (cur - first))) /\
  unlockedOf "10-logs" a = Some (10 <=? logs)%Z /\
  unlockedOf "50-logs" a = Some (50 <=? logs)%Z /\
  unlockedOf "3-day-streak" a = Some (3 <=? streak)%Z /\
  unlockedOf "7-day-streak" a = Some (7 <=? streak)%Z /\
  unlockedOf "30-day-streak" a = Some (30 <=? streak)%Z /\
  unlockedOf "100-day-streak" a = Some (100 <=? streak)%Z /\
  unlockedOf "target-reached" a =
    match targetWeight with
    | Some t => Some (if Qlt_bool cur first then Qle_bool cur t else Qle_bool t cur)
    | None => None
    end.
Proof.
  destruct h as [|r rest]; [contradiction|].
  intros cur first streak logs a. subst a.
  unfold calculateAchievements.
  assert (Hf : match startWeight with
               | Some s => if js_truthy s then s else firstWeightOf (r :: rest)
               | None => firstWeightOf (r :: rest) end = first).
  { subst first. destruct startWeight as [s|]; [|reflexivity].
    rewrite (js_truthy_nonzero s (Hs s eq_refl)). reflexivity. }
  rewrite Hf.
  destruct targetWeight as [t|].
  - rewrite (js_truthy_nonzero t (Ht t eq_refl)).
    destruct startWeight as [s|]; [destruct (js_truthy s)|];
      cbn -[Qle_bool Qlt_bool Qabs Qminus calculateStreak lastWeightOf];
      repeat split.
  - cbn -[Qle_bool Qlt_bool Qabs Qminus calculateStreak lastWeightOf];
      repeat split.
Qed.

Lemma achievements_threshold_table_witness :
  h_demo <> [] /\
  unlockedOf "1kg-milestone" (calculateAchievements utc_zone 0 h_demo None (Some 75)) =
    Some (Qle_bool 1 (Qabs (lastWeightOf h_demo - firstWeightOf h_demo))) /\
  unlockedOf "target-reached" (calculateAchievements utc_zone 0 h_demo None (Some 75)) =
    Some (if Qlt_bool (lastWeightOf h_demo) (firstWeightOf h_demo)
          then Qle_bool (lastWeightOf h_demo) 75
          else Qle_bool 75 (lastWeightOf h_demo)).
Proof.
  assert (Hne : h_demo <> []) by discriminate.
  pose proof (achievements_threshold_table utc_zone 0 h_demo None (Some 75) Hne
                (fun s E => ltac:(discriminate E))
                (fun t E => ltac:(injection E as <-; unfold Qeq; simpl; discriminate)))
    as H.
  cbv zeta in H.
  destruct H as (H1 & _ & _ & _ & _ & _ & _ & _ & _ & _ & H2).
  split; [exact Hne|]. split; [exact H1|exact H2].
Defined.

(** C8 (code_bug): with the local time zone at UTC, on 2026-10-15 (10:00)
    and records dated 2026-10-13, 2026-10-14 and 2026-10-15, i.e. three
    consecutive days ending today, [calculateStreak] returns 2, not 3: each
    day gap is measured from the previous record but compared with the
    running count. *)
Lemma streak_consecutive_days_undercounted :
  let h := [mkWeightRecord (today_demo - 2) 80; mkWeightRecord (today_demo - 1) 80;
            mkWeightRecord today_demo 80] in
  (forall k, (0 <= k < 3)%Z ->
     exists r, In r h /\ recorded_date r = (today_demo - k)%Z) /\
  calculateStreak utc_zone (today_demo * DAY_MS + 36000000)%Z h = 2%Z.
Proof.
  intros h. split.
  - intros k Hk.
    assert (Hk3 : (k = 0 \/ k = 1 \/ k = 2)%Z) by lia.
    destruct Hk3 as [E|[E|E]]; subst k.
    + exists (mkWeightRecord today_demo 80). split; [simpl; auto|]. simpl. lia.
    + exists (mkWeightRecord (today_demo - 1) 80). split; [simpl; auto|]. reflexivity.
    + exists (mkWeightRecord (today_demo - 2) 80). split; [simpl; auto|]. reflexivity.
  - vm_compute. reflexivity.
Qed.

(** ** Tables: generic facts *)

Section TableFacts.
Variable Row : Type.
Variable row_check : Row -> bool.

Lemma tbl_update_keeps (pol_using with_check target : Row -> bool) (f : Row -> Row)
    (tbl tbl' : list Row) :
  tbl_update row_check pol_using with_check target f tbl = DbOk tbl' ->
  forall r, In r tbl -> target r && pol_using r = false -> In r tbl'.
Proof.
  revert tbl'. induction tbl as [|x rest IH]; intros tbl' Hu r Hin Hsel.
  - destruct Hin.
  - simpl in Hu.
    destruct (tbl_update row_check pol_using with_check target f rest) as [rest'|e]
      eqn:Er; [|discriminate].
    destruct Hin as [<-|Hin].
    + rewrite Hsel in Hu. injection Hu as <-. left. reflexivity.
    + destruct (target x && pol_using x);
        [destruct (row_check (f x) && with_check (f x)); [|discriminate]|];
        injection Hu as <-; right; exact (IH rest' eq_refl r Hin Hsel).
Qed.

Lemma tbl_update_check (pol_using with_check target : Row -> bool) (f : Row -> Row)
    (tbl tbl' : list Row) :
  Forall (fun r => row_check r = true) tbl ->
  tbl_update row_check pol_using with_check target f tbl = DbOk tbl' ->
  Forall (fun r => row_check r = true) tbl'.
Proof.
  revert tbl'. induction tbl as [|x rest IH]; intros tbl' Hall Hu.
  - injection Hu as <-. constructor.
  - inversion Hall as [|? ? Hx Hrest]; subst. simpl in Hu.
    destruct (tbl_update row_check pol_using with_check target f rest) as [rest'|e]
      eqn:Er; [|discriminate].
    specialize (IH rest' Hrest eq_refl).
    destruct (target x && pol_using x).
    + destruct (row_check (f x)) eqn:Ec; [|discriminate].
      destruct (with_check (f x)); [|discriminate].
      injection Hu as <-. constructor; assumption.
    + injection Hu as <-. constructor; assumption.
Qed.

Lemma run_op_check (op : TableOp Row) (tbl tbl' : list Row) :
  Forall (fun r => row_check r = true) tbl ->
  run_op row_check op tbl = DbOk tbl' ->
  Forall (fun r => row_check r = true) tbl'.
Proof.
  intros Hall Hop. destruct op as [wc rows|u wc t f|u t]; simpl in Hop.
  - unfold tbl_insert in Hop.
    destruct (forallb (fun r => row_check r && wc r) rows) eqn:Ef; [|discriminate].
    injection Hop as <-. apply Forall_app. split; [exact Hall|].
    apply Forall_forall. intros r Hr.
    rewrite forallb_forall in Ef. specialize (Ef r Hr).
    apply andb_true_iff in Ef as [Ef _]. exact Ef.
  - exact (tbl_update_check u wc t f tbl tbl' Hall Hop).
  - unfold tbl_delete in Hop. injection Hop as <-.
    apply Forall_forall. intros r Hr. apply filter_In in Hr as [Hr _].
    rewrite Forall_forall in Hall. exact (Hall r Hr).
Qed.

Lemma run_ops_check (ops : list (TableOp Row)) (tbl : list Row) :
  Forall (fun r => row_check r = true) tbl ->
  Forall (fun r => row_check r = true) (run_ops row_check ops tbl).
Proof.
  revert tbl. induction ops as [|op rest IH]; intros tbl Hall; simpl; [exact Hall|].
  destruct (run_op row_check op tbl) as [tbl'|e] eqn:Eop.
  - apply IH. exact (run_op_check op tbl tbl' Hall Eop).
  - apply IH. exact Hall.
Qed.
End TableFacts.

Lemma existsb_eqb_In (s : string) (l : list string) :
  existsb (String.eqb s) l = true <-> In s l.
Proof.
  rewrite existsb_exists. split.
  - intros (x & Hx & E). apply String.eqb_eq in E. subst. exact Hx.
  - intro H. exists s. split; [exact H|]. apply String.eqb_refl.
Qed.

(** C7: every state the application can reach from the empty tables, by any
    sequence of inserts, updates and deletes (whatever their policies, filters
    and SET lists), has every [appointments] status in
    {pending, confirmed, cancelled, completed} and every [client_meal_plans]
    status in {active, completed, cancelled}: the CHECK constraints reject the
    statements that would produce anything else. *)
Theorem status_values_schema_invariant
    (appt_ops : list (TableOp Appointment)) (plan_ops : list (TableOp ClientMealPlan)) :
  Forall (fun a => In (status a) ["pending"; "confirmed"; "cancelled"; "completed"]%string)
    (run_ops appointments_check appt_ops []) /\
  Forall (fun m => In (cmp_status m) ["active"; "completed"; "cancelled"]%string)
    (run_ops client_meal_plans_check plan_ops []).
Proof.
  split.
  - pose proof (run_ops_check _ appointments_check appt_ops [] (Forall_nil _)) as H.
    eapply Forall_impl; [|exact H]. intros a Ha. apply existsb_eqb_In. exact Ha.
  - pose proof (run_ops_check _ client_meal_plans_check plan_ops [] (Forall_nil _)) as H.
    eapply Forall_impl; [|exact H]. intros m Hm. apply existsb_eqb_In. exact Hm.
Qed.

(** C3: a client (a caller without the admin role) can never change an
    appointment whose status is 'cancelled': whatever request it sends
    (insert, update with any filter and SET list, delete), every cancelled
    row of the table is still there, unchanged, after the request succeeds;
    and the client UI renders Reschedule/Cancel only for 'pending' and
    'confirmed' appointments. *)
Theorem client_cannot_modify_cancelled (c : Caller) (now : Z) (req : ClientRequest)
    (tbl tbl' : list Appointment)
    (Hclient : is_admin c = false)
    (Hreq : client_request c now req tbl = DbOk tbl') :
  (forall a, In a tbl -> status a = "cancelled"%string -> In a tbl') /\
  (forall s, showClientActions s = true -> s = "pending"%string \/ s = "confirmed"%string).
Proof.
  split.
  - intros a Hin Hst. destruct req as [rows|target p|target]; simpl in Hreq.
    + unfold tbl_insert in Hreq.
      destruct (forallb _ rows); [|discriminate].
      injection Hreq as <-. apply in_or_app. left. exact Hin.
    + eapply tbl_update_keeps; [exact Hreq|exact Hin|].
      unfold appointments_update_using. rewrite Hst, Hclient.
      simpl. repeat rewrite andb_false_r. reflexivity.
    + unfold tbl_delete in Hreq. injection Hreq as <-.
      apply filter_In. split; [exact Hin|].
      unfold appointments_delete_using. rewrite Hclient.
      repeat rewrite andb_false_r. reflexivity.
  - intros s Hs. unfold showClientActions in Hs.
    apply orb_true_iff in Hs as [Hs|Hs]; apply String.eqb_eq in Hs; auto.
Qed.


Lemma client_cannot_modify_cancelled_witness :
  client_request (mkCaller "client-1" false) 5
    (ReqUpdate (fun _ => true)
       (mkAppointmentPatch None None None None (Some "confirmed"%string) None None))
    [appt_demo "a1" "cancelled"; appt_demo "a2" "pending"] =
  DbOk [appt_demo "a1" "cancelled";
        mkAppointment "a2" "client-1" 20745 "10:00" 60 "confirmed" None None 0 5] /\
  (In (appt_demo "a1" "cancelled")
      [appt_demo "a1" "cancelled";
       mkAppointment "a2" "client-1" 20745 "10:00" 60 "confirmed" None None 0 5]).
Proof.
  assert (Hr : client_request (mkCaller "client-1" false) 5
    (ReqUpdate (fun _ => true)
       (mkAppointmentPatch None None None None (Some "confirmed"%string) None None))
    [appt_demo "a1" "cancelled"; appt_demo "a2" "pending"] =
  DbOk [appt_demo "a1" "cancelled";
        mkAppointment "a2" "client-1" 20745 "10:00" 60 "confirmed" None None 0 5])
    by (vm_compute; reflexivity).
  split; [exact Hr|].
  destruct (client_cannot_modify_cancelled (mkCaller "client-1" false) 5 _ _ _
              eq_refl Hr) as [H _].
  apply H; [simpl; left; reflexivity|reflexivity].
Defined.

Lemma tbl_update_pointwise {Row} (row_check pol_using with_check target : Row -> bool)
    (f : Row -> Row) (tbl tbl' : list Row) :
  tbl_update row_check pol_using with_check target f tbl = DbOk tbl' ->
  Forall2 (fun r r' => r' = r \/ (target r && pol_using r = true /\ r' = f r)) tbl tbl'.
Proof.
  revert tbl'. induction tbl as [|x rest IH]; intros tbl' Hu; simpl in Hu.
  - injection Hu as <-. constructor.
  - destruct (tbl_update row_check pol_using with_check target f rest) as [rest'|e];
      [|discriminate].
    destruct (target x && pol_using x) eqn:Es.
    + destruct (row_check (f x) && with_check (f x)); [|discriminate].
      injection Hu as <-. constructor; [right; split; [exact Es|reflexivity]|exact (IH _ eq_refl)].
    + injection Hu as <-. constructor; [left; reflexivity|exact (IH _ eq_refl)].
Qed.

Lemma Forall2_refl_of {A} (P : A -> A -> Prop) (l : list A) :
  (forall a, P a a) -> Forall2 P l l.
Proof. intro H. induction l; constructor; auto. Qed.

(** C9: rescheduling sets only [appointment_date], [appointment_time] and
    [status] (the latter to 'pending' when the appointment was 'confirmed',
    otherwise to its own status); on every path (validation failure, update
    error or success) each row of the table keeps its [id], [client_id],
    [duration_minutes], [notes], [client_notes] and [created_at], and a row
    that changes gets the new date, time and that status (the
    [updated_at] trigger also stamps the time of the update). *)
Theorem reschedule_frame (c : Caller) (now : Z) (clientId : string) (sel : Appointment)
    (d : Z) (t : string) (calls : RescheduleCalls) (tbl : list Appointment) :
  let p := reschedulePatch sel d t in
  set_client_id p = None /\ set_duration_minutes p = None /\
  set_notes p = None /\ set_client_notes p = None /\
  set_appointment_date p = Some d /\ set_appointment_time p = Some t /\
  set_status p = Some (if String.eqb (status sel) "confirmed" then "pending"%string
                       else status sel) /\
  Forall2 (fun a a' =>
      appt_id a' = appt_id a /\ client_id a' = client_id a /\
      duration_minutes a' = duration_minutes a /\ notes a' = notes a /\
      client_notes a' = client_notes a /\ created_at a' = created_at a /\
      (a' = a \/
       (appointment_date a' = d /\ appointment_time a' = t /\
        status a' = if String.eqb (status sel) "confirmed" then "pending"%string
                    else status sel)))
    tbl (db (handleReschedule c now clientId (Some sel) (Some d) (Some t) calls tbl)).
Proof.
  intros p. repeat split.
  unfold handleReschedule.
  destruct (appointments_update_by_id c now (reschedulePatch sel d t) (appt_id sel) tbl)
    as [tbl'|e] eqn:Eu; simpl.
  - apply tbl_update_pointwise in Eu.
    eapply Forall2_impl; [|exact Eu].
    intros a a' [->|[_ ->]]; [repeat split; left; reflexivity|].
    repeat split. right. repeat split.
  - apply Forall2_refl_of. intros a. repeat split. left. reflexivity.
Qed.

(** C5: when the primary write succeeds, the outcome of the notification
    block (each lookup and the e-mail invocation may throw) makes no
    difference: the handler still reports success and the table is the one
    the primary write committed, for [handleReschedule] and [handleAssign]. *)
Theorem notification_failure_never_blocks_primary_write :
  (forall c now clientId sel d t calls tbl tbl',
     appointments_update_by_id c now (reschedulePatch sel d t) (appt_id sel) tbl = DbOk tbl' ->
     db (handleReschedule c now clientId (Some sel) (Some d) (Some t) calls tbl) = tbl' /\
     toasts (handleReschedule c now clientId (Some sel) (Some d) (Some t) calls tbl)
       = [mkToast "Appointment Rescheduled" false]) /\
  (forall c now newId selectedClientId mealPlanId startDate notes calls tbl tbl',
     selectedClientId <> ""%string -> mealPlanId <> ""%string ->
     tbl_insert client_meal_plans_check (client_meal_plans_insert_check c)
       [assignRow c newId selectedClientId mealPlanId startDate notes now] tbl = DbOk tbl' ->
     db (handleAssign c now newId selectedClientId mealPlanId startDate notes calls tbl) = tbl' /\
     toasts (handleAssign c now newId selectedClientId mealPlanId startDate notes calls tbl)
       = [mkToast "Success" false]).
Proof.
  split.
  - intros c now clientId sel d t calls tbl tbl' Hu.
    unfold handleReschedule. rewrite Hu. split; reflexivity.
  - intros c now newId cid mpid sd notes calls tbl tbl' Hc Hm Hi.
    unfold handleAssign.
    apply String.eqb_neq in Hc, Hm. rewrite Hc, Hm. simpl.
    rewrite Hi. split; reflexivity.
Qed.

(** C4 (amended): a parsed weight that is NaN, zero or negative makes
    [handleAddWeight] show the "Invalid Weight" notification, issue no
    backend request (in particular no insert into [weight_history]) and
    leave the stored history unchanged.  The check is the component's own
    [if (!weight || weight <= 0)]. *)
Theorem add_weight_rejects_nonpositive (c : Caller) (now : Z) (newId : string)
    (parsed : JsNumber) (recordDate : Z) (tbl : list WeightHistoryRow)
    (Hbad : parsed = NaN \/ exists w, parsed = Num w /\ w <= 0) :
  snd (handleAddWeight c now newId parsed recordDate tbl) = [] /\
  db (fst (handleAddWeight c now newId parsed recordDate tbl)) = tbl /\
  toasts (fst (handleAddWeight c now newId parsed recordDate tbl))
    = [mkToast "Invalid Weight" true].
Proof.
  destruct Hbad as [->|(w & -> & Hw)]; [repeat split|].
  unfold handleAddWeight.
  assert (Hle : Qle_bool w 0 = true) by (apply Qle_bool_iff; exact Hw).
  rewrite Hle, orb_true_r. repeat split.
Qed.

Lemma add_weight_rejects_nonpositive_witness :
  snd (handleAddWeight (mkCaller "client-1" false) 0 "w1" (Num (-1)) 20741 []) = [] /\
  db (fst (handleAddWeight (mkCaller "client-1" false) 0 "w1" (Num (-1)) 20741 [])) = [].
Proof.
  assert (Hbad : Num (-1) = NaN \/ exists w, Num (-1) = Num w /\ w <= 0).
  { right. exists (-1). split; [reflexivity|]. unfold Qle. simpl. lia. }
  destruct (add_weight_rejects_nonpositive (mkCaller "client-1" false) 0 "w1" (Num (-1))
              20741 [] Hbad) as (H1 & H2 & _).
  split; [exact H1|exact H2].
Defined.

(** C4 (counterexample): positivity is not a declarative constraint: the
    [weight_history] table declares only [weight_kg NUMERIC(5,2) NOT NULL],
    so an insert of a weight of -1 kg by its owner passes every constraint
    and policy of the schema. *)
Lemma weight_history_schema_admits_negative :
  let row := mkWeightHistoryRow "w1" "client-1" (-1) 20741 None 0 in
  wh_weight_kg row <= 0 /\
  weight_history_check row = true /\
  tbl_insert weight_history_check (weight_history_insert_check (mkCaller "client-1" false))
    [row] [] = DbOk [row].
Proof.
  intros row. split; [vm_compute; discriminate|]. split; vm_compute; reflexivity.
Qed.

(** C6 (amended): a failed fetch is caught where it is issued and not
    retried: the weight-history fetch shows one error notification and the
    appointments fetch only writes to the console; both leave the list as it
    was, clear [loading] and issue exactly the one select. *)
Theorem fetch_errors_caught_without_retry (e : string)
    (sw : ListState WeightRecord) (sa : ListState Appointment) :
  let (sw', rw) := fetchWeightHistory (DbError e) sw in
  let (sa', ra) := fetchAppointments (DbError e) sa in
  (items sw' = items sw /\ loading sw' = false /\
   ui_toasts sw' = ui_toasts sw ++ [mkToast "Error" true] /\
   rw = [SelectFrom "weight_history"]) /\
  (items sa' = items sa /\ loading sa' = false /\
   ui_toasts sa' = ui_toasts sa /\
   ui_console sa' = ui_console sa ++ ["Error fetching appointments:"%string; e] /\
   ra = [SelectFrom "appointments"]).
Proof. simpl. repeat split. Qed.

(** C6 (counterexample): a failed appointments fetch shows no notification,
    and a failed re-fetch of the weight history (after a weight was added)
    keeps the previous, non-empty list. *)
Lemma fetch_errors_not_all_notified :
  ui_toasts (fst (fetchAppointments (DbError "network error")
                    (mkListState [] true [] []))) = [] /\
  items (fst (fetchWeightHistory (DbError "network error")
               (mkListState [mkWeightRecord 20741 80] false [] []))) <> [].
Proof. split; [reflexivity|simpl; discriminate]. Qed.

(** ** Sorting and the streak *)

Lemma insertByDateDesc_perm (r : WeightRecord) (l : list WeightRecord) :
  Permutation (insertByDateDesc r l) (r :: l).
Proof.
  induction l as [|x xs IH]; simpl; [reflexivity|].
  destruct (_ <=? _)%Z; [|reflexivity].
  eapply perm_trans; [apply perm_skip; exact IH|apply perm_swap].
Qed.

Lemma sort_fold_perm (h acc : list WeightRecord) :
  Permutation (fold_left (fun acc r => insertByDateDesc r acc) h acc) (h ++ acc).
Proof.
  revert acc; induction h as [|x h IH]; intro acc; simpl; [reflexivity|].
  eapply perm_trans; [apply IH|].
  eapply perm_trans; [apply Permutation_app_head, insertByDateDesc_perm|].
  apply Permutation_sym, Permutation_middle.
Qed.

Lemma insert_HdRel (x r : WeightRecord) (l : list WeightRecord) :
  HdRel newest_first x l -> newest_first x r ->
  HdRel newest_first x (insertByDateDesc r l).
Proof.
  intros H Hr. destruct l as [|y ys]; simpl; [constructor; exact Hr|].
  destruct (_ <=? _)%Z; constructor; [inversion H; assumption|exact Hr].
Qed.

Lemma insert_sorted (r : WeightRecord) (l : list WeightRecord) :
  Sorted newest_first l -> Sorted newest_first (insertByDateDesc r l).
Proof.
  induction l as [|x xs IH]; intro Hs; simpl; [repeat constructor|].
  apply Sorted_inv in Hs as [Hxs Hhd].
  destruct (Date_parse (recorded_date r) <=? Date_parse (recorded_date x))%Z eqn:E.
  - constructor; [exact (IH Hxs)|]. apply insert_HdRel; [exact Hhd|].
    unfold newest_first. apply Z.leb_le. exact E.
  - constructor; [constructor; assumption|]. constructor. unfold newest_first.
    apply Z.leb_gt in E. lia.
Qed.

Lemma sort_fold_sorted (h acc : list WeightRecord) :
  Sorted newest_first acc ->
  Sorted newest_first (fold_left (fun acc r => insertByDateDesc r acc) h acc).
Proof.
  revert acc; induction h as [|x h IH]; intros acc Hs; simpl; [exact Hs|].
  apply IH, insert_sorted, Hs.
Qed.

Lemma sortByDateDesc_perm (h : list WeightRecord) : Permutation (sortByDateDesc h) h.
Proof.
  unfold sortByDateDesc. rewrite <- (app_nil_r h) at 2. apply sort_fold_perm.
Qed.

Lemma sortByDateDesc_sorted (h : list WeightRecord) : Sorted newest_first (sortByDateDesc h).
Proof. apply sort_fold_sorted. constructor. Qed.

(** The sort of [calculateStreak] ([[...weightHistory].sort(...)]) returns
    the same records, newest first. *)
Theorem sortByDateDesc_sorted_permutation (h : list WeightRecord) :
  Permutation (sortByDateDesc h) h /\ Sorted newest_first (sortByDateDesc h).
Proof. split; [apply sortByDateDesc_perm|apply sortByDateDesc_sorted]. Qed.

Lemma streakLoop_bounds (tz : TimeZone) (l : list WeightRecord) :
  forall s cur, (s <= streakLoop tz l s cur)%Z /\ (streakLoop tz l s cur <= s + Z.of_nat (List.length l))%Z.
Proof.
  induction l as [|r rest IH]; intros s cur; simpl; [lia|].
  destruct (_ =? s)%Z; [|lia].
  specialize (IH (s + 1)%Z (setHours0 tz (Date_parse (recorded_date r)))). lia.
Qed.

Lemma calculateStreak_bounds (tz : TimeZone) (now : Z) (h : list WeightRecord) :
  (0 <= calculateStreak tz now h)%Z /\ (calculateStreak tz now h <= Z.of_nat (List.length h))%Z.
Proof.
  unfold calculateStreak.
  rewrite <- (Permutation_length (sortByDateDesc_perm h)).
  apply streakLoop_bounds.
Qed.

(** The streak of [calculateStreak] is never negative and never exceeds
    the number of weight records, whatever the clock and time zone. *)
Theorem streak_between_zero_and_log_count (tz : TimeZone) (now : Z) (h : list WeightRecord) :
  (0 <= calculateStreak tz now h)%Z /\
  (calculateStreak tz now h <= Z.of_nat (List.length h))%Z.
Proof. apply calculateStreak_bounds. Qed.

Lemma setHours0_fixed (tz : TimeZone) (t : Z) :
  tz_transitions tz = [] ->
  setHours0 tz t = ((t + tz_offset0 tz) / DAY_MS * DAY_MS - tz_offset0 tz)%Z.
Proof.
  intro E. unfold setHours0, UTC, LocalTime, offsetAt. rewrite E. reflexivity.
Qed.

Lemma setHours0_eq_of_div (tz : TimeZone) (a b : Z) :
  tz_transitions tz = [] ->
  ((setHours0 tz a - setHours0 tz b) / DAY_MS = 0)%Z -> setHours0 tz a = setHours0 tz b.
Proof.
  intros E H. rewrite !(setHours0_fixed tz _ E) in *.
  set (o := tz_offset0 tz) in *.
  replace (((a + o) / DAY_MS * DAY_MS - o) - ((b + o) / DAY_MS * DAY_MS - o))%Z
    with (((a + o) / DAY_MS - (b + o) / DAY_MS) * DAY_MS)%Z in H by ring.
  rewrite Z.div_mul in H by (unfold DAY_MS; lia). lia.
Qed.

(** In a zone without transitions, local midnights are monotone. *)
Lemma setHours0_fixed_mono (o a b : Z) :
  (a <= b)%Z -> (setHours0 (fixed_zone o) a <= setHours0 (fixed_zone o) b)%Z.
Proof.
  intro H. rewrite !setHours0_fixed by reflexivity. cbn [tz_offset0 fixed_zone].
  assert ((a + o) / DAY_MS <= (b + o) / DAY_MS)%Z
    by (apply Z.div_le_mono; [unfold DAY_MS; lia|lia]).
  assert (0 < DAY_MS)%Z by (unfold DAY_MS; lia). nia.
Qed.

Lemma newest_first_trans : Transitive newest_first.
Proof. intros a b c. unfold newest_first. lia. Qed.

(** A positive streak means that some record's local midnight is today's
    local midnight or lies less than 24 hours before it; in a zone without
    transitions this is today's local midnight itself.  (Across a change to
    daylight saving time the record's local day may be yesterday.) *)
Theorem streak_positive_logged_today (tz : TimeZone) (now : Z) (h : list WeightRecord) :
  (0 < calculateStreak tz now h)%Z ->
  exists r, In r h /\
    (0 <= setHours0 tz now - setHours0 tz (Date_parse (recorded_date r)))%Z /\
    (setHours0 tz now - setHours0 tz (Date_parse (recorded_date r)) < DAY_MS)%Z /\
    (tz_transitions tz = [] ->
     setHours0 tz (Date_parse (recorded_date r)) = setHours0 tz now).
Proof.
  unfold calculateStreak. intro Hp.
  destruct (sortByDateDesc h) as [|r rest] eqn:Es; simpl in Hp; [lia|].
  destruct (_ =? 0)%Z eqn:E; [|lia].
  apply Z.eqb_eq in E.
  exists r. split.
  - apply (Permutation_in r (sortByDateDesc_perm h)). rewrite Es. left. reflexivity.
  - apply Z.div_small_iff in E; [|unfold DAY_MS; lia].
    assert (0 < DAY_MS)%Z by (unfold DAY_MS; lia).
    split; [lia|]. split; [lia|].
    intros Ef. symmetry. apply setHours0_eq_of_div; [exact Ef|].
    apply Z.div_small_iff; [unfold DAY_MS; lia|lia].
Qed.

Lemma streak_positive_logged_today_witness :
  (0 < calculateStreak berlin_2026 (20542 * DAY_MS + 28800000) [mkWeightRecord 20541 80])%Z /\
  exists r, In r [mkWeightRecord 20541 80] /\
    (0 <= setHours0 berlin_2026 (20542 * DAY_MS + 28800000)
          - setHours0 berlin_2026 (Date_parse (recorded_date r)))%Z /\
    (setHours0 berlin_2026 (20542 * DAY_MS + 28800000)
     - setHours0 berlin_2026 (Date_parse (recorded_date r)) < DAY_MS)%Z /\
    (tz_transitions berlin_2026 = [] ->
     setHours0 berlin_2026 (Date_parse (recorded_date r))
     = setHours0 berlin_2026 (20542 * DAY_MS + 28800000)).
Proof.
  assert (Hp : (0 < calculateStreak berlin_2026 (20542 * DAY_MS + 28800000)
                      [mkWeightRecord 20541 80])%Z) by (vm_compute; reflexivity).
  split; [exact Hp|]. exact (streak_positive_logged_today _ _ _ Hp).
Defined.

(** Conversely, a record on today's local day, with no record on a later
    local day, gives a streak of at least one, in any zone whose local
    midnights do not go backwards (every zone without transitions, see
    [setHours0_fixed_mono]). *)
Theorem streak_at_least_one_when_logged_today (tz : TimeZone) (now : Z) (h : list WeightRecord)
    (Hmono : forall a b, (a <= b)%Z -> (setHours0 tz a <= setHours0 tz b)%Z)
    (Htoday : exists r, In r h /\
                setHours0 tz (Date_parse (recorded_date r)) = setHours0 tz now)
    (Hpast : forall r, In r h ->
               (setHours0 tz (Date_parse (recorded_date r)) <= setHours0 tz now)%Z) :
  (1 <= calculateStreak tz now h)%Z.
Proof.
  destruct Htoday as (r & Hr & Eq).
  pose proof (sortByDateDesc_perm h) as Hperm.
  pose proof (sortByDateDesc_sorted h) as Hsort.
  unfold calculateStreak.
  destruct (sortByDateDesc h) as [|r0 rest] eqn:Es.
  { apply Permutation_nil in Hperm. subst h. destruct Hr. }
  assert (Hr0 : In r0 h) by (apply (Permutation_in r0 Hperm); left; reflexivity).
  assert (Hle : newest_first r0 r \/ r = r0).
  { assert (Hin : In r (r0 :: rest)) by (apply (Permutation_in r (Permutation_sym Hperm)); exact Hr).
    destruct Hin as [E|Hin]; [right; symmetry; exact E|left].
    pose proof (Sorted_extends newest_first_trans Hsort) as Hall.
    rewrite Forall_forall in Hall. exact (Hall r Hin). }
  assert (Hday : setHours0 tz (Date_parse (recorded_date r0)) = setHours0 tz now).
  { pose proof (Hpast r0 Hr0).
    destruct Hle as [Hle|<-]; [|exact Eq].
    apply Hmono in Hle. lia. }
  simpl. rewrite Hday, Z.sub_diag. simpl.
  pose proof (streakLoop_bounds tz rest 1 (setHours0 tz now)). lia.
Qed.

Lemma streak_at_least_one_when_logged_today_witness :
  (1 <= calculateStreak utc_zone (today_demo * DAY_MS + 36000000)
          [mkWeightRecord (today_demo - 2) 80; mkWeightRecord today_demo 80])%Z.
Proof.
  apply streak_at_least_one_when_logged_today.
  - intros a b. apply setHours0_fixed_mono.
  - exists (mkWeightRecord today_demo 80). split; [simpl; auto|vm_compute; reflexivity].
  - intros r Hr. simpl in Hr.
    destruct Hr as [<-|[<-|[]]]; vm_compute; discriminate.
Defined.

(** ** Achievements *)

Ltac achievements_cases :=
  repeat match goal with
  | |- context [js_truthy ?x] => destruct (js_truthy x)
  end;
  cbn -[Qle_bool Qlt_bool Qabs Qminus calculateStreak lastWeightOf].

Lemma achievements_flags (tz : TimeZone) (now : Z) (h : list WeightRecord) (sw tw : option Q) :
  h <> [] ->
  let first := match sw with
               | Some s => if js_truthy s then s else firstWeightOf h
               | None => firstWeightOf h
               end in
  let tc := Qabs (lastWeightOf h - first) in
  let streak := calculateStreak tz now h in
  let logs := Z.of_nat (List.length h) in
  let a := calculateAchievements tz now h sw tw in
  unlockedOf "first-log" a = Some (1 <=? logs)%Z /\
  unlockedOf "1kg-milestone" a = Some (Qle_bool 1 tc) /\
  unlockedOf "5kg-milestone" a = Some (Qle_bool 5 tc) /\
  unlockedOf "10kg-milestone" a = Some (Qle_bool 10 tc) /\
  unlockedOf "15kg-milestone" a = Some (Qle_bool 15 tc) /\
  unlockedOf "3-day-streak" a = Some (3 <=? streak)%Z /\
  unlockedOf "7-day-streak" a = Some (7 <=? streak)%Z /\
  unlockedOf "30-day-streak" a = Some (30 <=? streak)%Z /\
  unlockedOf "100-day-streak" a = Some (100 <=? streak)%Z /\
  unlockedOf "10-logs" a = Some (10 <=? logs)%Z /\
  unlockedOf "50-logs" a = Some (50 <=? logs)%Z.
Proof.
  destruct h as [|r rest]; [contradiction|].
  intros _ first tc streak logs a. subst first tc streak logs a.
  unfold calculateAchievements.
  destruct tw as [t|]; destruct sw as [s|]; achievements_cases; repeat split.
Qed.

Lemma Qle_bool_weaken (a b x : Q) : a <= b -> Qle_bool b x = true -> Qle_bool a x = true.
Proof.
  intros H E. apply Qle_bool_iff in E. apply Qle_bool_iff. exact (Qle_trans _ _ _ H E).
Qed.

(** The badges of one family unlock in order: a 15 kg milestone implies
    the 10, 5 and 1 kg ones, a 100-day streak the 30, 7 and 3-day ones, and
    50 logs the 10-log badge. *)
Theorem achievement_unlocks_nested (tz : TimeZone) (now : Z) (h : list WeightRecord)
    (sw tw : option Q) :
  let a := calculateAchievements tz now h sw tw in
  (unlockedOf "15kg-milestone" a = Some true -> unlockedOf "10kg-milestone" a = Some true) /\
  (unlockedOf "10kg-milestone" a = Some true -> unlockedOf "5kg-milestone" a = Some true) /\
  (unlockedOf "5kg-milestone" a = Some true -> unlockedOf "1kg-milestone" a = Some true) /\
  (unlockedOf "100-day-streak" a = Some true -> unlockedOf "30-day-streak" a = Some true) /\
  (unlockedOf "30-day-streak" a = Some true -> unlockedOf "7-day-streak" a = Some true) /\
  (unlockedOf "7-day-streak" a = Some true -> unlockedOf "3-day-streak" a = Some true) /\
  (unlockedOf "50-logs" a = Some true -> unlockedOf "10-logs" a = Some true).
Proof.
  intros a. subst a. destruct h as [|r rest].
  { simpl. repeat split; discriminate. }
  destruct (achievements_flags tz now (r :: rest) sw tw ltac:(discriminate))
    as (_ & H1 & H5 & H10 & H15 & H3d & H7d & H30d & H100d & H10l & H50l).
  set (n := Z.of_nat (List.length (r :: rest))) in H10l, H50l.
  rewrite H1, H5, H10, H15, H3d, H7d, H30d, H100d, H10l, H50l.
  repeat split; intro E; injection E as E; f_equal;
    first [ apply Z.leb_le in E; apply Z.leb_le; lia
          | eapply Qle_bool_weaken; [|exact E]; unfold Qle; simpl; lia ].
Qed.

(** A k-day streak badge needs at least k weight records. *)
Theorem streak_badges_need_that_many_logs (tz : TimeZone) (now : Z) (h : list WeightRecord)
    (sw tw : option Q) :
  let a := calculateAchievements tz now h sw tw in
  let logs := Z.of_nat (List.length h) in
  (unlockedOf "3-day-streak" a = Some true -> (3 <= logs)%Z) /\
  (unlockedOf "7-day-streak" a = Some true -> (7 <= logs)%Z) /\
  (unlockedOf "30-day-streak" a = Some true -> (30 <= logs)%Z) /\
  (unlockedOf "100-day-streak" a = Some true -> (100 <= logs)%Z).
Proof.
  intros a logs. subst a logs. destruct h as [|r rest].
  { simpl. repeat split; discriminate. }
  destruct (achievements_flags tz now (r :: rest) sw tw ltac:(discriminate))
    as (_ & _ & _ & _ & _ & H3d & H7d & H30d & H100d & _ & _).
  rewrite H3d, H7d, H30d, H100d.
  destruct (calculateStreak_bounds tz now (r :: rest)) as [_ Hb].
  repeat split; intro E; injection E as E; apply Z.leb_le in E; lia.
Qed.

Lemma unlockedOf_true_count (id : string) (l : list Achievement) :
  unlockedOf id l = Some true -> (1 <= unlockedCount l)%nat.
Proof.
  unfold unlockedCount.
  induction l as [|x rest IH]; simpl; [discriminate|].
  destruct (String.eqb (ach_id x) id).
  - intro E. injection E as E. rewrite E. simpl. lia.
  - intro E. specialize (IH E). destruct (unlocked x); simpl; lia.
Qed.

Lemma displayed_collapsed (l : list Achievement) :
  List.length (displayedAchievements false l) = Nat.min 6 (unlockedCount l) /\
  Forall (fun x => unlocked x = true) (displayedAchievements false l).
Proof.
  unfold displayedAchievements, unlockedCount. split; [apply length_firstn|].
  apply Forall_forall. intros x Hx.
  assert (Hin : In x (filter unlocked l)).
  { rewrite <- (firstn_skipn 6 (filter unlocked l)). apply in_or_app. left. exact Hx. }
  apply filter_In in Hin as [_ Hin]. exact Hin.
Qed.

(** An empty history gives no achievements (the card renders nothing);
    any record unlocks 'First Step', so the collapsed card then shows
    between one and six badges, all unlocked. *)
Theorem achievements_empty_or_first_log (tz : TimeZone) (now : Z) (h : list WeightRecord)
    (sw tw : option Q) :
  let a := calculateAchievements tz now h sw tw in
  (h = [] -> a = []) /\
  (h <> [] ->
   unlockedOf "first-log" a = Some true /\
   (1 <= unlockedCount a)%nat /\
   (1 <= List.length (displayedAchievements false a))%nat /\
   (List.length (displayedAchievements false a) <= 6)%nat /\
   Forall (fun x => unlocked x = true) (displayedAchievements false a)).
Proof.
  intros a. split; [intros ->; reflexivity|].
  intros Hne.
  destruct (achievements_flags tz now h sw tw Hne) as (Hf & _).
  assert (Hl : (1 <=? Z.of_nat (List.length h))%Z = true).
  { apply Z.leb_le. destruct h; [contradiction|]. simpl. lia. }
  rewrite Hl in Hf. fold a in Hf.
  pose proof (unlockedOf_true_count _ _ Hf) as Hc.
  destruct (displayed_collapsed a) as [Hlen Hall].
  rewrite Hlen. repeat split; [exact Hf|exact Hc|lia|lia|exact Hall].
Qed.

Lemma achievements_empty_or_first_log_witness :
  h_demo <> [] /\
  unlockedOf "first-log" (calculateAchievements utc_zone 0 h_demo None None) = Some true.
Proof.
  assert (Hne : h_demo <> []) by discriminate.
  split; [exact Hne|].
  destruct (achievements_empty_or_first_log utc_zone 0 h_demo None None) as [_ H].
  destruct (H Hne) as [Hf _]. exact Hf.
Defined.

(** ** Updates under row-level security *)

Lemma tbl_update_checked {Row} (row_check pol_using with_check target : Row -> bool)
    (f : Row -> Row) (tbl tbl' : list Row) :
  tbl_update row_check pol_using with_check target f tbl = DbOk tbl' ->
  Forall2 (fun r r' => (target r && pol_using r = false /\ r' = r) \/
                       (target r && pol_using r = true /\ r' = f r /\
                        row_check (f r) && with_check (f r) = true)) tbl tbl'.
Proof.
  revert tbl'. induction tbl as [|x rest IH]; intros tbl' Hu; simpl in Hu.
  - injection Hu as <-. constructor.
  - destruct (tbl_update row_check pol_using with_check target f rest) as [rest'|e];
      [|discriminate].
    destruct (target x && pol_using x) eqn:Es.
    + destruct (row_check (f x) && with_check (f x)) eqn:Ec; [|discriminate].
      injection Hu as <-. constructor; [right; auto|exact (IH _ eq_refl)].
    + injection Hu as <-. constructor; [left; auto|exact (IH _ eq_refl)].
Qed.

Lemma tbl_update_map {Row} (row_check pol_using with_check target : Row -> bool)
    (f : Row -> Row) (tbl : list Row) :
  (forall r, In r tbl -> target r && pol_using r = true ->
             row_check (f r) && with_check (f r) = true) ->
  tbl_update row_check pol_using with_check target f tbl =
    DbOk (map (fun r => if target r && pol_using r then f r else r) tbl).
Proof.
  induction tbl as [|x rest IH]; intro H; simpl; [reflexivity|].
  rewrite IH by (intros r Hr; apply H; right; exact Hr).
  destruct (target x && pol_using x) eqn:Es; [|reflexivity].
  rewrite (H x (or_introl eq_refl) Es). reflexivity.
Qed.

Lemma tbl_update_rejects {Row} (row_check pol_using with_check target : Row -> bool)
    (f : Row -> Row) (tbl : list Row) :
  (exists r, In r tbl /\ target r && pol_using r = true /\
             row_check (f r) && with_check (f r) = false) ->
  exists e, tbl_update row_check pol_using with_check target f tbl = DbError e.
Proof.
  induction tbl as [|x rest IH]; intros (r & Hr & Hs & Hc); [destruct Hr|]. simpl.
  destruct (tbl_update row_check pol_using with_check target f rest) as [rest'|e] eqn:Er;
    [|eexists; reflexivity].
  destruct Hr as [<-|Hr].
  - rewrite Hs, Hc. eexists; reflexivity.
  - destruct (IH (ex_intro _ r (conj Hr (conj Hs Hc)))) as [e He]. congruence.
Qed.

Lemma Forall2_eq_self {A} (l l' : list A) :
  Forall2 (fun r r' => r' = r) l l' -> l' = l.
Proof. induction 1; [reflexivity|congruence]. Qed.

Lemma Forall2_in_r {A} (P : A -> A -> Prop) (l l' : list A) (y : A) :
  Forall2 P l l' -> In y l' -> exists x, In x l /\ P x y.
Proof.
  induction 1 as [|x y' l l' Hxy _ IH]; intros Hin; [destruct Hin|].
  destruct Hin as [<-|Hin]; [exists x; split; [left|]; auto|].
  destruct (IH Hin) as (x' & Hx' & Hp). exists x'. split; [right|]; auto.
Qed.

Lemma existsb_eqb_notin (s : string) (l : list string) :
  ~ In s l -> existsb (String.eqb s) l = false.
Proof.
  intros H. destruct (existsb (String.eqb s) l) eqn:E; [|reflexivity].
  apply existsb_eqb_In in E. contradiction.
Qed.

Lemma cancel_new_row_rejected (c : Caller) (now : Z) (a : Appointment) :
  is_admin c = false ->
  appointments_update_using c (touch_updated_at now (apply_patch cancelPatch a)) = false.
Proof.
  intro H. unfold appointments_update_using. simpl. rewrite H, andb_false_r. reflexivity.
Qed.

(** A client without the admin role can never cancel an appointment: the
    update policy has no WITH CHECK, so its USING expression (status
    'pending' or 'confirmed') is also required of the new row, which has
    status 'cancelled'.  The table never changes; when the id names one of
    the client's own pending or confirmed appointments the handler shows
    "Error", and otherwise (no row matched) it reports "Appointment
    Cancelled" although nothing was cancelled. *)
Theorem client_cancel_never_changes_table (c : Caller) (now : Z) (id : string)
    (tbl : list Appointment) (Hclient : is_admin c = false) :
  db (handleCancel c now id tbl) = tbl /\
  ((exists a, In a tbl /\ appt_id a = id /\ client_id a = uid c /\
              (status a = "pending"%string \/ status a = "confirmed"%string)) ->
   toasts (handleCancel c now id tbl) = [mkToast "Error" true]) /\
  ((forall a, In a tbl -> appt_id a = id -> client_id a = uid c ->
              status a <> "pending"%string /\ status a <> "confirmed"%string) ->
   toasts (handleCancel c now id tbl) = [mkToast "Appointment Cancelled" false]).
Proof.
  split; [|split].
  - unfold handleCancel.
    destruct (appointments_update_by_id c now cancelPatch id tbl) as [tbl'|e] eqn:Eu;
      [|reflexivity].
    simpl. apply Forall2_eq_self.
    apply tbl_update_checked in Eu. eapply Forall2_impl; [|exact Eu].
    intros r r' [[_ E]|(_ & _ & Ec)]; [exact E|].
    rewrite cancel_new_row_rejected in Ec by exact Hclient.
    rewrite andb_false_r in Ec. discriminate.
  - intros (a & Hin & Hid & Hcl & Hst).
    unfold handleCancel, appointments_update_by_id.
    destruct (tbl_update_rejects appointments_check
                (fun a => appointments_select_using c a && appointments_update_using c a)
                (appointments_update_using c) (fun a => String.eqb (appt_id a) id)
                (fun a => touch_updated_at now (apply_patch cancelPatch a)) tbl)
      as [e He].
    + exists a. split; [exact Hin|]. split.
      * rewrite Hid, String.eqb_refl.
        unfold appointments_select_using, appointments_update_using.
        rewrite Hcl, String.eqb_refl.
        destruct Hst as [Hst|Hst]; rewrite Hst; reflexivity.
      * rewrite cancel_new_row_rejected by exact Hclient. apply andb_false_r.
    + rewrite He. reflexivity.
  - intros Hnone. unfold handleCancel, appointments_update_by_id.
    rewrite tbl_update_map; [reflexivity|].
    intros r Hr Hs. exfalso.
    apply andb_true_iff in Hs as [Hid Hs]. apply String.eqb_eq in Hid.
    unfold appointments_select_using, appointments_update_using in Hs.
    rewrite Hclient, !orb_false_r in Hs.
    apply andb_true_iff in Hs as [Hsel Hs]. apply andb_true_iff in Hs as [_ Hs].
    apply String.eqb_eq in Hsel.
    destruct (Hnone r Hr Hid (eq_sym Hsel)) as [Hp Hc].
    apply existsb_eqb_In in Hs. simpl in Hs.
    destruct Hs as [E|[E|[]]]; [apply Hp|apply Hc]; symmetry; exact E.
Qed.

Lemma client_cancel_never_changes_table_witness :
  db (handleCancel (mkCaller "client-1" false) 5 "a1" [appt_demo "a1" "pending"])
    = [appt_demo "a1" "pending"] /\
  toasts (handleCancel (mkCaller "client-1" false) 5 "a1" [appt_demo "a1" "pending"])
    = [mkToast "Error" true].
Proof.
  destruct (client_cancel_never_changes_table (mkCaller "client-1" false) 5 "a1"
              [appt_demo "a1" "pending"] eq_refl) as (H1 & H2 & _).
  split; [exact H1|]. apply H2.
  exists (appt_demo "a1" "pending"). split; [left; reflexivity|].
  split; [reflexivity|]. split; [reflexivity|]. left; reflexivity.
Defined.

(** A client (without the admin role) rescheduling one of its own pending
    or confirmed appointments succeeds: the rows with that id get the new
    date and time and end up 'pending', the others stay as they were. *)
Theorem client_reschedule_own_succeeds (c : Caller) (now : Z) (clientId : string)
    (sel : Appointment) (d : Z) (t : string) (calls : RescheduleCalls)
    (tbl : list Appointment)
    (Hclient : is_admin c = false)
    (Hsel : status sel = "pending"%string \/ status sel = "confirmed"%string)
    (Hown : forall a, In a tbl -> appt_id a = appt_id sel ->
              client_id a = uid c /\
              (status a = "pending"%string \/ status a = "confirmed"%string)) :
  let o := handleReschedule c now clientId (Some sel) (Some d) (Some t) calls tbl in
  toasts o = [mkToast "Appointment Rescheduled" false] /\
  db o = map (fun a => if String.eqb (appt_id a) (appt_id sel)
                       then touch_updated_at now (apply_patch (reschedulePatch sel d t) a)
                       else a) tbl /\
  Forall (fun a => appt_id a = appt_id sel ->
                   appointment_date a = d /\ appointment_time a = t /\
                   status a = "pending"%string) (db o).
Proof.
  intros o.
  assert (Hnew : (if String.eqb (status sel) "confirmed" then "pending"%string
                  else status sel) = "pending"%string)
    by (destruct Hsel as [E|E]; rewrite E; reflexivity).
  assert (Hpol : forall a, In a tbl -> appt_id a = appt_id sel ->
            appointments_select_using c a && appointments_update_using c a = true).
  { intros a Ha Hid. destruct (Hown a Ha Hid) as [Hcl Hst].
    unfold appointments_select_using, appointments_update_using.
    rewrite Hcl, String.eqb_refl. destruct Hst as [E|E]; rewrite E; reflexivity. }
  assert (Hu : appointments_update_by_id c now (reschedulePatch sel d t) (appt_id sel) tbl =
    DbOk (map (fun a => if String.eqb (appt_id a) (appt_id sel)
                        then touch_updated_at now (apply_patch (reschedulePatch sel d t) a)
                        else a) tbl)).
  { unfold appointments_update_by_id. rewrite tbl_update_map.
    - f_equal. apply map_ext_in. intros a Ha.
      destruct (String.eqb (appt_id a) (appt_id sel)) eqn:Eid; [|reflexivity].
      apply String.eqb_eq in Eid. rewrite (Hpol a Ha Eid). reflexivity.
    - intros a Ha Hs. apply andb_true_iff in Hs as [Hid _].
      apply String.eqb_eq in Hid. destruct (Hown a Ha Hid) as [Hcl _].
      unfold appointments_check, appointments_update_using. simpl.
      rewrite Hnew, Hcl, !String.eqb_refl. reflexivity. }
  subst o. unfold handleReschedule. rewrite Hu. simpl.
  split; [reflexivity|]. split; [reflexivity|].
  apply Forall_forall. intros a' Ha'. apply in_map_iff in Ha' as (a & <- & Ha).
  destruct (String.eqb (appt_id a) (appt_id sel)) eqn:Eid.
  - intros _. simpl. rewrite Hnew. auto.
  - intros Hid. apply String.eqb_neq in Eid. contradiction.
Qed.

Lemma client_reschedule_own_succeeds_witness :
  toasts (handleReschedule (mkCaller "client-1" false) 5 "client-1"
            (Some (appt_demo "a1" "confirmed")) (Some 20750%Z) (Some "14:00"%string)
            (mkRescheduleCalls (Throw "down") (Throw "down") (fun _ => Throw "down")
               (Throw "down"))
            [appt_demo "a1" "confirmed"; appt_demo "a2" "cancelled"])
    = [mkToast "Appointment Rescheduled" false].
Proof.
  apply (client_reschedule_own_succeeds (mkCaller "client-1" false) 5 "client-1"
           (appt_demo "a1" "confirmed") 20750 "14:00"
           (mkRescheduleCalls (Throw "down") (Throw "down") (fun _ => Throw "down")
              (Throw "down"))
           [appt_demo "a1" "confirmed"; appt_demo "a2" "cancelled"] eq_refl
           (or_intror eq_refl)).
  intros a Ha Hid. simpl in Ha.
  destruct Ha as [<-|[<-|[]]]; [split; [reflexivity|right; reflexivity]|].
  vm_compute in Hid. discriminate.
Defined.

(** Whatever request a client without the admin role sends to
    [appointments], the other clients' appointments stay in the table, and
    every row that is new or changed afterwards belongs to the caller. *)
Theorem client_requests_confined_to_own_rows (c : Caller) (now : Z) (req : ClientRequest)
    (tbl tbl' : list Appointment)
    (Hclient : is_admin c = false)
    (Hreq : client_request c now req tbl = DbOk tbl') :
  (forall a, In a tbl -> client_id a <> uid c -> In a tbl') /\
  (forall a, In a tbl' -> ~ In a tbl -> client_id a = uid c).
Proof.
  assert (Hsel : forall a, client_id a <> uid c -> appointments_select_using c a = false).
  { intros a Hne. unfold appointments_select_using. rewrite Hclient, orb_false_r.
    apply String.eqb_neq. intro E. apply Hne. symmetry. exact E. }
  destruct req as [rows|target p|target]; simpl in Hreq.
  - unfold tbl_insert in Hreq.
    destruct (forallb _ rows) eqn:Ef; [|discriminate]. injection Hreq as <-.
    split; [intros a Ha _; apply in_or_app; left; exact Ha|].
    intros a Ha Hn. apply in_app_or in Ha as [Ha|Ha]; [contradiction|].
    rewrite forallb_forall in Ef. specialize (Ef a Ha).
    apply andb_true_iff in Ef as [_ Ef]. unfold appointments_insert_check in Ef.
    apply String.eqb_eq in Ef. symmetry. exact Ef.
  - split.
    + intros a Ha Hne. eapply tbl_update_keeps; [exact Hreq|exact Ha|].
      cbv beta. rewrite Hsel by exact Hne. simpl. apply andb_false_r.
    + intros a' Ha' Hn. apply tbl_update_checked in Hreq.
      destruct (Forall2_in_r _ _ _ _ Hreq Ha') as (a & Ha & [[_ E]|(_ & E & Ec)]).
      * subst a'. contradiction.
      * subst a'. apply andb_true_iff in Ec as [_ Ec].
        unfold appointments_update_using in Ec. rewrite Hclient, orb_false_r in Ec.
        apply andb_true_iff in Ec as [Ec _]. apply String.eqb_eq in Ec.
        symmetry. exact Ec.
  - unfold tbl_delete in Hreq. injection Hreq as <-. split.
    + intros a Ha _. apply filter_In. split; [exact Ha|].
      unfold appointments_delete_using. rewrite Hclient, !andb_false_r. reflexivity.
    + intros a Ha Hn. apply filter_In in Ha as [Ha _]. contradiction.
Qed.

Lemma client_requests_confined_to_own_rows_witness :
  client_request (mkCaller "client-1" false) 5
    (ReqDelete (fun _ => true))
    [mkAppointment "a1" "client-2" 20745 "10:00" 60 "pending" None None 0 0] =
  DbOk [mkAppointment "a1" "client-2" 20745 "10:00" 60 "pending" None None 0 0] /\
  In (mkAppointment "a1" "client-2" 20745 "10:00" 60 "pending" None None 0 0)
     [mkAppointment "a1" "client-2" 20745 "10:00" 60 "pending" None None 0 0].
Proof.
  assert (Hr : client_request (mkCaller "client-1" false) 5
    (ReqDelete (fun _ => true))
    [mkAppointment "a1" "client-2" 20745 "10:00" 60 "pending" None None 0 0] =
    DbOk [mkAppointment "a1" "client-2" 20745 "10:00" 60 "pending" None None 0 0])
    by (vm_compute; reflexivity).
  split; [exact Hr|].
  destruct (client_requests_confined_to_own_rows (mkCaller "client-1" false) 5 _ _ _
              eq_refl Hr) as [H _].
  apply H; [left; reflexivity|vm_compute; discriminate].
Defined.

(** ** Assigning meal plans *)

(** Assigning a meal plan needs the admin role: for any other caller the
    insert is rejected by the policy (or the form by validation) and the
    table is unchanged; for an admin with a client and a plan selected, one
    row is appended, 'active', for that client and plan, assigned by the
    admin. *)
Theorem assign_requires_admin (c : Caller) (now : Z) (newId cid mpid : string)
    (sd : Z) (notes : string) (calls : AssignCalls) (tbl : list ClientMealPlan) :
  let o := handleAssign c now newId cid mpid sd notes calls tbl in
  (is_admin c = false ->
   db o = tbl /\
   (toasts o = [mkToast "Validation Error" true] \/ toasts o = [mkToast "Error" true])) /\
  (is_admin c = true -> cid <> ""%string -> mpid <> ""%string ->
   toasts o = [mkToast "Success" false] /\
   exists m, db o = tbl ++ [m] /\ cmp_client_id m = cid /\ meal_plan_id m = mpid /\
             cmp_status m = "active"%string /\ assigned_by m = Some (uid c)).
Proof.
  intros o. subst o. unfold handleAssign, tbl_insert. split.
  - intros Hna.
    destruct (String.eqb cid "" || String.eqb mpid "");
      [split; [reflexivity|left; reflexivity]|].
    simpl. unfold client_meal_plans_insert_check. rewrite Hna. simpl.
    split; [reflexivity|right; reflexivity].
  - intros Ha Hc Hm. apply String.eqb_neq in Hc, Hm. rewrite Hc, Hm. simpl.
    unfold client_meal_plans_insert_check. rewrite Ha. simpl.
    split; [reflexivity|].
    eexists. split; [reflexivity|]. repeat split.
Qed.

Lemma assign_requires_admin_witness :
  exists m,
    db (handleAssign (mkCaller "admin-1" true) 0 "m1" "client-1" "plan-1" 20741 ""
          (mkAssignCalls (Ret None) (Ret None) (Ret None) (Ret tt)) []) = [] ++ [m] /\
    cmp_status m = "active"%string.
Proof.
  destruct (assign_requires_admin (mkCaller "admin-1" true) 0 "m1" "client-1" "plan-1"
              20741 "" (mkAssignCalls (Ret None) (Ret None) (Ret None) (Ret tt)) [])
    as [_ H].
  destruct (H eq_refl ltac:(discriminate) ltac:(discriminate))
    as (_ & m & Hdb & _ & _ & Hst & _).
  exists m. split; [exact Hdb|exact Hst].
Defined.

(** ** Recording a weight *)

Lemma Qpos_nonzero (w : Q) : 0 < w -> ~ w == 0.
Proof. intros H E. rewrite E in H. exact (Qlt_irrefl 0 H). Qed.

Lemma Qle_bool_pos_false (w : Q) : 0 < w -> Qle_bool w 0 = false.
Proof.
  intros H. destruct (Qle_bool w 0) eqn:E; [|reflexivity].
  apply Qle_bool_iff in E. exfalso. exact (Qlt_not_le _ _ H E).
Qed.

Lemma numeric_round_2_cents (r : Z) : numeric_round 2 (r # 100) = r.
Proof.
  unfold numeric_round. cbn [Qnum Qden]. change (10 ^ 2)%Z with 100%Z.
  rewrite Z.sgn_mul, Z.abs_mul. change (Z.sgn 100) with 1%Z. change (Z.abs 100) with 100%Z.
  replace ((2 * (Z.abs r * 100) + 100) / (2 * 100))%Z with (Z.abs r).
  - rewrite Z.mul_1_r, Z.mul_comm. apply Z.abs_sgn.
  - apply Z.div_unique with (r := (100)%Z); lia.
Qed.

(** Rounding to two decimals moves a positive value by at most 0.005. *)
Lemma numeric_round_2_error (w : Q) :
  0 < w -> Qabs ((numeric_round 2 w # 100) - w) <= 1 # 200.
Proof.
  intros Hpos. unfold Qlt in Hpos. simpl in Hpos. rewrite Z.mul_1_r in Hpos.
  unfold numeric_round. cbv zeta. change (10 ^ 2)%Z with 100%Z.
  rewrite Z.sgn_pos by lia. rewrite Z.mul_1_l, Z.abs_eq by lia.
  destruct w as [n d]. cbn [Qnum Qden] in *.
  set (r := ((2 * (n * 100) + Z.pos d) / (2 * Z.pos d))%Z).
  assert (Hd : (0 < Z.pos d)%Z) by lia.
  assert (H1 : (2 * Z.pos d * r <= 2 * (n * 100) + Z.pos d)%Z)
    by (apply Z.mul_div_le; lia).
  assert (H2 : (2 * (n * 100) + Z.pos d < 2 * Z.pos d * (r + 1))%Z).
  { rewrite Z.mul_add_distr_l, Z.mul_1_r.
    pose proof (Z.mod_pos_bound (2 * (n * 100) + Z.pos d) (2 * Z.pos d) ltac:(lia)).
    pose proof (Z.div_mod (2 * (n * 100) + Z.pos d) (2 * Z.pos d) ltac:(lia)).
    fold r in H0. lia. }
  apply Qabs_Qle_condition. unfold Qle, Qminus, Qplus, Qopp. cbn [Qnum Qden].
  rewrite !Pos2Z.inj_mul. split; nia.
Qed.

(** A positive weight that fits [NUMERIC(5,2)] is stored for the signed-in
    user, rounded to two decimals (so within 0.005 kg of the entered value):
    one row is appended, "Weight Recorded!" is shown, and the history is
    fetched again after the insert. *)
Theorem add_weight_stores_valid_weight (c : Caller) (now : Z) (newId : string) (w : Q)
    (recordDate : Z) (tbl : list WeightHistoryRow)
    (Hpos : 0 < w) (Hfits : numeric_fits 5 2 w = true) :
  db (fst (handleAddWeight c now newId (Num w) recordDate tbl))
    = tbl ++ [mkWeightHistoryRow newId (uid c) (numeric_round 2 w # 100) recordDate None now] /\
  Qabs ((numeric_round 2 w # 100) - w) <= 1 # 200 /\
  toasts (fst (handleAddWeight c now newId (Num w) recordDate tbl))
    = [mkToast "Weight Recorded!" false] /\
  snd (handleAddWeight c now newId (Num w) recordDate tbl)
    = [InsertInto "weight_history"; SelectFrom "weight_history"].
Proof.
  assert (Hfits' : numeric_fits 5 2 (numeric_round 2 w # 100) = true).
  { unfold numeric_fits at 1. rewrite numeric_round_2_cents. exact Hfits. }
  unfold handleAddWeight.
  rewrite (js_truthy_nonzero w (Qpos_nonzero w Hpos)), (Qle_bool_pos_false w Hpos).
  unfold weight_history_insert, numeric_coerce. cbn [wh_weight_kg]. rewrite Hfits.
  change (Z.to_pos (10 ^ 2)) with 100%positive.
  unfold tbl_insert. simpl.
  unfold weight_history_check, weight_history_insert_check. simpl.
  rewrite Hfits', String.eqb_refl. simpl.
  split; [reflexivity|]. split; [apply numeric_round_2_error; exact Hpos|].
  split; reflexivity.
Qed.

Lemma add_weight_stores_valid_weight_witness :
  db (fst (handleAddWeight (mkCaller "client-1" false) 0 "w1" (Num (999994 # 1000)) 20741 []))
    = [mkWeightHistoryRow "w1" "client-1" (99999 # 100) 20741 None 0].
Proof.
  assert (Hpos : 0 < 999994 # 1000) by (unfold Qlt; simpl; lia).
  assert (Hfits : numeric_fits 5 2 (999994 # 1000) = true) by (vm_compute; reflexivity).
  destruct (add_weight_stores_valid_weight (mkCaller "client-1" false) 0 "w1" (999994 # 1000)
              20741 [] Hpos Hfits) as [H _].
  rewrite H. vm_compute. reflexivity.
Defined.

Lemma numeric_fits_5_2_large (w : Q) : 1000 <= w -> numeric_fits 5 2 w = false.
Proof.
  intro H. unfold Qle in H. simpl in H.
  unfold numeric_fits, numeric_round. cbv zeta.
  change (10 ^ 2)%Z with 100%Z. change (10 ^ 5)%Z with 100000%Z.
  assert (Hd : (0 < Z.pos (Qden w))%Z) by lia.
  assert (Hq : (100000 <= (2 * Z.abs (Qnum w * 100) + Z.pos (Qden w))
                          / (2 * Z.pos (Qden w)))%Z).
  { apply Z.div_le_lower_bound; [lia|]. rewrite Z.abs_eq by lia. nia. }
  rewrite Z.sgn_pos by lia. apply Z.ltb_ge. rewrite Z.mul_1_l, Z.abs_eq; lia.
Qed.

(** A weight of 1000 kg or more passes the component's check but not the
    column type [NUMERIC(5,2)]: the insert is sent and fails, "Error" is
    shown, the history is unchanged and is not fetched again. *)
Theorem add_weight_rejects_out_of_range (c : Caller) (now : Z) (newId : string) (w : Q)
    (recordDate : Z) (tbl : list WeightHistoryRow) (Hbig : 1000 <= w) :
  db (fst (handleAddWeight c now newId (Num w) recordDate tbl)) = tbl /\
  toasts (fst (handleAddWeight c now newId (Num w) recordDate tbl))
    = [mkToast "Error" true] /\
  snd (handleAddWeight c now newId (Num w) recordDate tbl) = [InsertInto "weight_history"].
Proof.
  assert (Hpos : 0 < w) by (apply Qlt_le_trans with 1000; [reflexivity|exact Hbig]).
  unfold handleAddWeight.
  rewrite (js_truthy_nonzero w (Qpos_nonzero w Hpos)), (Qle_bool_pos_false w Hpos).
  unfold weight_history_insert, numeric_coerce. cbn [wh_weight_kg].
  rewrite (numeric_fits_5_2_large w Hbig). simpl. repeat split.
Qed.

Lemma add_weight_rejects_out_of_range_witness :
  toasts (fst (handleAddWeight (mkCaller "client-1" false) 0 "w1" (Num 1000) 20741 []))
    = [mkToast "Error" true].
Proof.
  assert (Hbig : 1000 <= 1000) by apply Qle_refl.
  destruct (add_weight_rejects_out_of_range (mkCaller "client-1" false) 0 "w1" 1000
              20741 [] Hbig) as (_ & H & _).
  exact H.
Defined.

(** ** Roles *)

(** Any signed-in user without the admin role can give it to itself: the
    policy "Users can insert own role" checks only [auth.uid() = user_id],
    not the role, so inserting [(uid, 'admin')] succeeds and afterwards
    [has_role(uid, 'admin')] holds. *)
Theorem any_user_can_grant_itself_admin (c : Caller) (id : string) (tbl : list UserRole)
    (Hnot : has_role tbl (uid c) RoleAdmin = false) :
  exists tbl',
    user_roles_insert c [mkUserRole id (uid c) RoleAdmin] tbl = DbOk tbl' /\
    has_role tbl' (uid c) RoleAdmin = true.
Proof.
  exists (tbl ++ [mkUserRole id (uid c) RoleAdmin]). split.
  - cbn [user_roles_insert ur_user_id ur_role]. rewrite Hnot.
    unfold user_roles_insert_check. cbn [ur_user_id]. rewrite String.eqb_refl.
    reflexivity.
  - unfold has_role. rewrite existsb_app. simpl.
    rewrite String.eqb_refl, orb_true_r. reflexivity.
Qed.

Lemma any_user_can_grant_itself_admin_witness :
  exists tbl',
    user_roles_insert (mkCaller "client-1" false) [mkUserRole "r2" "client-1" RoleAdmin]
      [mkUserRole "r1" "client-1" RoleClient] = DbOk tbl' /\
    has_role tbl' "client-1" RoleAdmin = true.
Proof.
  apply (any_user_can_grant_itself_admin (mkCaller "client-1" false) "r2"
           [mkUserRole "r1" "client-1" RoleClient]).
  vm_compute. reflexivity.
Defined.

(** ** Trend analysis: direction and projection *)

Lemma trend_shape (tz : TimeZone) (h : list WeightRecord) (tw : option Q) (now : Z) :
  (2 <= List.length h)%nat ->
  exists ta,
    fst (calculateTrendAnalysis tz tw now h) = Some ta /\
    avgWeeklyChange ta = (lastWeightOf h - firstWeightOf h) /
      (Qmax 1 (inject_Z (Date_parse (lastDateOf h) - Date_parse (firstDateOf h))
               / inject_Z DAY_MS) / 7) /\
    ((weeksToTarget ta = None /\ projectedDate ta = None) \/
     (~ avgWeeklyChange ta == 0 /\
      exists w, weeksToTarget ta = Some w /\ 0 <= w /\
                projectedDate ta = Some (addDays tz now (w * 7)))).
Proof.
  intros Hlen. unfold calculateTrendAnalysis.
  assert (Hn : (List.length h <? 2)%nat = false) by (apply Nat.ltb_ge; exact Hlen).
  rewrite Hn. cbn [Divs.bind Divs.qdiv Divs.ret fst snd].
  rewrite (Qlt_bool_true _ _ (weeks_pos _)).
  cbn [Divs.bind Divs.qdiv Divs.ret fst snd].
  destruct tw as [t|].
  - destruct (js_truthy t && negb (Qeq_bool _ 0)) eqn:Eg;
      cbn [Divs.bind Divs.qdiv Divs.ret fst snd].
    + eexists; split; [reflexivity|]. split; [reflexivity|]. right.
      cbn [avgWeeklyChange weeksToTarget projectedDate]. split.
      * intro E. apply Qeq_bool_iff in E.
        apply andb_true_iff in Eg as [_ Eg]. rewrite E in Eg. discriminate.
      * eexists; split; [reflexivity|]. split; [apply Qabs_nonneg|reflexivity].
    + eexists; split; [reflexivity|]. split; [reflexivity|]. left. split; reflexivity.
  - eexists; split; [reflexivity|]. split; [reflexivity|]. left. split; reflexivity.
Qed.

Lemma trend_short_none (tz : TimeZone) (h : list WeightRecord) (tw : option Q) (now : Z) :
  (List.length h < 2)%nat -> fst (calculateTrendAnalysis tz tw now h) = None.
Proof.
  intros Hlen. unfold calculateTrendAnalysis.
  apply Nat.ltb_lt in Hlen. rewrite Hlen. reflexivity.
Qed.

(** In a zone without transitions (UTC or any fixed offset) the projected
    goal date, when it is a valid date, is never before today and lies a
    whole number of 24-hour days ahead; it only exists together with a
    non-negative [weeksToTarget]. *)
Theorem trend_projection_never_in_past (o : Z) (h : list WeightRecord) (tw : option Q)
    (now : Z) :
  forall ta p,
    fst (calculateTrendAnalysis (fixed_zone o) tw now h) = Some ta ->
    projectedDate ta = Some (DateAt p) ->
    (now <= p)%Z /\ ((p - now) mod DAY_MS = 0)%Z /\
    exists w, weeksToTarget ta = Some w /\ 0 <= w.
Proof.
  intros ta p Hta Hp.
  destruct (Nat.lt_ge_cases (List.length h) 2) as [Hlt|Hge].
  { rewrite trend_short_none in Hta by exact Hlt. discriminate. }
  destruct (trend_shape (fixed_zone o) h tw now Hge) as (ta' & Hta' & _ & Hcases).
  rewrite Hta in Hta'. injection Hta' as <-.
  destruct Hcases as [[_ Hn]|(_ & w & Hw & Hw0 & Hpd)]; [congruence|].
  rewrite Hpd in Hp. injection Hp as Hp.
  assert (Hf : (0 <= Qfloor (w * 7))%Z).
  { change 0%Z with (Qfloor 0). apply Qfloor_resp_le. lra. }
  unfold addDays in Hp. set (k := Qfloor (w * 7)) in Hp, Hf.
  unfold TimeClip, UTC, LocalTime, offsetAt in Hp. cbn [fixed_zone tz_offset0
    tz_transitions offset_scan utc_scan] in Hp.
  destruct (_ <=? _)%Z in Hp; [|discriminate].
  injection Hp as <-.
  split; [unfold DAY_MS in *; lia|]. split.
  - replace (now + o + k * DAY_MS - o - now)%Z with (k * DAY_MS)%Z by ring.
    apply Z.mod_mul. unfold DAY_MS. lia.
  - exists w. split; assumption.
Qed.

Lemma trend_projection_never_in_past_witness :
  exists ta p,
    fst (calculateTrendAnalysis utc_zone (Some (157 # 2)) 0%Z h_demo) = Some ta /\
    projectedDate ta = Some (DateAt p) /\ (0 <= p)%Z.
Proof.
  set (ta := mkTrendAnalysis (-604800000 # 604800000) (Some (604800000 # 1209600000))
                             (Some (DateAt (3 * DAY_MS))) (Some true)).
  assert (Hta : fst (calculateTrendAnalysis utc_zone (Some (157 # 2)) 0%Z h_demo) = Some ta)
    by (vm_compute; reflexivity).
  exists ta, (3 * DAY_MS)%Z. split; [exact Hta|]. split; [reflexivity|].
  destruct (trend_projection_never_in_past 0 h_demo (Some (157 # 2)) 0 ta (3 * DAY_MS)
              Hta eq_refl) as [H _].
  exact H.
Defined.

(** With at least two records the average weekly change has the sign of
    [current - first]: negative exactly when the weight went down, positive
    exactly when it went up and zero exactly when it is unchanged, and then
    there is no projection. *)
Theorem trend_direction_follows_weight_change (tz : TimeZone) (h : list WeightRecord)
    (tw : option Q) (now : Z) (Hlen : (2 <= List.length h)%nat) :
  exists ta,
    fst (calculateTrendAnalysis tz tw now h) = Some ta /\
    (avgWeeklyChange ta < 0 <-> lastWeightOf h < firstWeightOf h) /\
    (0 < avgWeeklyChange ta <-> firstWeightOf h < lastWeightOf h) /\
    (avgWeeklyChange ta == 0 <-> lastWeightOf h == firstWeightOf h) /\
    (lastWeightOf h == firstWeightOf h ->
     weeksToTarget ta = None /\ projectedDate ta = None).
Proof.
  destruct (trend_shape tz h tw now Hlen) as (ta & Hta & Havg & Hcases).
  set (W := Qmax 1 (inject_Z (Date_parse (lastDateOf h) - Date_parse (firstDateOf h))
                    / inject_Z DAY_MS) / 7) in Havg.
  assert (HW : 0 < / W) by (apply Qinv_lt_0_compat, weeks_pos).
  set (x := lastWeightOf h - firstWeightOf h) in Havg.
  assert (Hx : avgWeeklyChange ta == x * / W) by (rewrite Havg; reflexivity).
  assert (Hneg : avgWeeklyChange ta < 0 <-> x < 0).
  { rewrite Hx. rewrite <- (Qmult_lt_r x 0 (/ W) HW).
    split; intro H; [rewrite Qmult_0_l|rewrite Qmult_0_l in H]; exact H. }
  assert (Hpos : 0 < avgWeeklyChange ta <-> 0 < x).
  { rewrite Hx. rewrite <- (Qmult_lt_r 0 x (/ W) HW).
    split; intro H; [rewrite Qmult_0_l|rewrite Qmult_0_l in H]; exact H. }
  assert (Hzero : avgWeeklyChange ta == 0 <-> x == 0).
  { rewrite Hx. split.
    - intro H. apply Qmult_integral in H as [H|H]; [exact H|].
      rewrite H in HW. exfalso. exact (Qlt_irrefl 0 HW).
    - intro H. rewrite H. apply Qmult_0_l. }
  exists ta. split; [exact Hta|].
  subst x. split; [|split; [|split]].
  - rewrite Hneg. split; intro; lra.
  - rewrite Hpos. split; intro; lra.
  - rewrite Hzero. split; intro; lra.
  - intro Hflat. destruct Hcases as [Hc|(Hnz & _)]; [exact Hc|].
    exfalso. apply Hnz. apply Hzero. lra.
Qed.

Lemma trend_direction_follows_weight_change_witness :
  exists ta,
    fst (calculateTrendAnalysis new_york_2026 (Some (157 # 2)) 0%Z h_demo) = Some ta /\
    avgWeeklyChange ta < 0.
Proof.
  assert (Hlen : (2 <= List.length h_demo)%nat) by (simpl; lia).
  destruct (trend_direction_follows_weight_change new_york_2026 h_demo (Some (157 # 2)) 0 Hlen)
    as (ta & Hta & [_ Hneg] & _).
  exists ta. split; [exact Hta|]. apply Hneg. vm_compute. reflexivity.
Defined.

(** ** The streak and the order of the history *)

Lemma sorted_desc_perm_eq (l1 l2 : list Z) :
  Sorted Z.ge l1 -> Sorted Z.ge l2 -> Permutation l1 l2 -> l1 = l2.
Proof.
  assert (T : Transitive Z.ge) by (intros a b c; lia).
  revert l2; induction l1 as [|x l1 IH]; intros l2 S1 S2 P.
  - apply Permutation_nil in P. subst. reflexivity.
  - destruct l2 as [|y l2].
    { apply Permutation_sym, Permutation_nil in P. discriminate. }
    assert (Hxy : x = y).
    { assert (Hy : In y (x :: l1))
        by (apply (Permutation_in y (Permutation_sym P)); left; reflexivity).
      assert (Hx : In x (y :: l2)) by (apply (Permutation_in x P); left; reflexivity).
      pose proof (Sorted_extends T S1) as F1. pose proof (Sorted_extends T S2) as F2.
      rewrite Forall_forall in F1, F2.
      destruct Hy as [Hy|Hy]; [exact Hy|]. destruct Hx as [Hx|Hx]; [symmetry; exact Hx|].
      specialize (F1 y Hy). specialize (F2 x Hx). lia. }
    subst y. apply Permutation_cons_inv in P. f_equal.
    apply Sorted_inv in S1 as [S1 _]. apply Sorted_inv in S2 as [S2 _].
    exact (IH l2 S1 S2 P).
Qed.

Lemma sorted_keys (l : list WeightRecord) :
  Sorted newest_first l -> Sorted Z.ge (map (fun r => Date_parse (recorded_date r)) l).
Proof.
  induction 1 as [|a l Hs IH Hhd]; simpl; constructor; [exact IH|].
  destruct Hhd as [|b l' Hab]; simpl; constructor. unfold newest_first in Hab. lia.
Qed.

Lemma streakLoop_keys (tz : TimeZone) (l1 l2 : list WeightRecord) :
  map (fun r => Date_parse (recorded_date r)) l1 =
  map (fun r => Date_parse (recorded_date r)) l2 ->
  forall s cur, streakLoop tz l1 s cur = streakLoop tz l2 s cur.
Proof.
  revert l2; induction l1 as [|x l1 IH]; intros [|y l2] E s cur; simpl in E;
    try discriminate; [reflexivity|].
  injection E as Exy E. simpl. rewrite Exy.
  destruct (_ =? s)%Z; [apply IH; exact E|reflexivity].
Qed.

(** The streak depends only on which records there are, not on the order
    in which the history is passed in. *)
Theorem streak_independent_of_history_order (tz : TimeZone) (now : Z) (h1 h2 : list WeightRecord) :
  Permutation h1 h2 -> calculateStreak tz now h1 = calculateStreak tz now h2.
Proof.
  intros P. unfold calculateStreak. apply streakLoop_keys.
  apply sorted_desc_perm_eq; [apply sorted_keys, sortByDateDesc_sorted
                             |apply sorted_keys, sortByDateDesc_sorted|].
  apply Permutation_map.
  eapply perm_trans; [apply sortByDateDesc_perm|].
  eapply perm_trans; [exact P|]. apply Permutation_sym, sortByDateDesc_perm.
Qed.

Lemma streak_independent_of_history_order_witness :
  Permutation h_demo (rev h_demo) /\
  calculateStreak utc_zone (7 * DAY_MS) h_demo = calculateStreak utc_zone (7 * DAY_MS) (rev h_demo).
Proof.
  split; [apply Permutation_rev|].
  apply streak_independent_of_history_order. apply Permutation_rev.
Defined.
